(** * PET resource-allocation ETL: a shallow embedding of [src/etl.py]

    The development follows the header-detection and normalisation
    pipeline of the dashboard ([src/src/etl.py]) and the notebook variant
    of the same functions ([src/PET_Dashboard_Databricks.py]).

    Modelling conventions.
    - Text is [string] (ASCII).  Python's [str.strip], [str.lower], [\s]
      and [\d] are taken on their ASCII range; characters outside ASCII
      are not modelled.
    - A pandas float64 cell is a [spec_float] at precision 53 and maximal
      exponent 1024; a missing numeric value is [S754_nan], as in pandas.
    - A DataFrame is a list of column labels with row-major cells; the
      frame that [pd.read_csv(..., dtype=str, keep_default_na=False)]
      returns has text cells only.  Labels are looked up by their first
      occurrence.
    - Python dictionaries keyed by integers are [gmap N _], sets of text
      are [gset string].
    - pandas' own conversions between text and floats are parameters of
      the pipeline; [Decimal.to_float] instantiates the reader on the
      sample files.

    The first part holds the definitions, in the order of the source; the
    second part the properties. *)

From Stdlib Require Import ZArith QArith Ascii String SpecFloat.
From stdpp Require Import base option list gmap strings sorting.

Local Open Scope string_scope.

(** ** Python string primitives *)

Module PyStr.

(** [str.isspace] on the ASCII range: TAB..CR, FS..US and the blank. *)
Definition is_space (c : ascii) : bool :=
  let n := nat_of_ascii c in
  ((9 <=? n) && (n <=? 13) || (28 <=? n) && (n <=? 31) || (n =? 32))%nat.

(** [\d] on the ASCII range. *)
Definition is_digit (c : ascii) : bool :=
  let n := nat_of_ascii c in ((48 <=? n) && (n <=? 57))%nat.

Definition lower_ascii (c : ascii) : ascii :=
  let n := nat_of_ascii c in
  if ((65 <=? n) && (n <=? 90))%nat then ascii_of_nat (n + 32) else c.

Fixpoint lower (s : string) : string :=
  match s with
  | EmptyString => EmptyString
  | String c s' => String (lower_ascii c) (lower s')
  end.

Fixpoint lstrip (s : string) : string :=
  match s with
  | EmptyString => EmptyString
  | String c s' => if is_space c then lstrip s' else s
  end.

(** [rstrip]: a character is kept when something that is not white
    space follows it or it is not white space itself. *)
Fixpoint rstrip (s : string) : string :=
  match s with
  | EmptyString => EmptyString
  | String c s' =>
      match rstrip s' with
      | EmptyString => if is_space c then EmptyString else String c EmptyString
      | r => String c r
      end
  end.

Definition strip (s : string) : string := rstrip (lstrip s).

Fixpoint filter (p : ascii -> bool) (s : string) : string :=
  match s with
  | EmptyString => EmptyString
  | String c s' => if p c then String c (filter p s') else filter p s'
  end.

Fixpoint mem (c : ascii) (s : string) : bool :=
  match s with
  | EmptyString => false
  | String d s' => Ascii.eqb c d || mem c s'
  end.

(** [s.split(c, 1)] for a one-character separator: [None] stands for
    the one-element list (no separator), [Some (a, b)] for [[a, b]]. *)
Fixpoint split_once (c : ascii) (s : string) : option (string * string) :=
  match s with
  | EmptyString => None
  | String d s' =>
      if Ascii.eqb c d then Some (EmptyString, s')
      else match split_once c s' with
           | Some (a, b) => Some (String d a, b)
           | None => None
           end
  end.

(** [sep in s] *)
Fixpoint contains (sep s : string) : bool :=
  String.prefix sep s ||
  match s with
  | EmptyString => false
  | String _ s' => contains sep s'
  end.

(** [s.split(sep)] for a non-empty [sep]: a left-to-right scan for
    non-overlapping occurrences.  [skip] counts the characters of a
    matched separator still to be passed over, [cur] is the current
    piece, reversed. *)
Fixpoint split_scan (sep : string) (skip : nat) (cur : list ascii)
    (s : string) : list string :=
  match s with
  | EmptyString => [string_of_list_ascii (rev cur)]
  | String c s' =>
      match skip with
      | S k => split_scan sep k cur s'
      | O =>
          if String.prefix sep s
          then string_of_list_ascii (rev cur)
                 :: split_scan sep (String.length sep - 1) [] s'
          else split_scan sep O (c :: cur) s'
      end
  end.

Definition split (sep s : string) : list string := split_scan sep 0 [] s.

(** [l[-1]] on the non-empty list a split returns. *)
Definition last_piece (l : list string) : string := List.last l EmptyString.

End PyStr.

(** ** Employee field parser *)

(** A DataFrame cell: text as read from the CSV, a float64, a boolean or
    Python's [None]. *)
Inductive cell :=
| VStr (s : string)
| VNum (f : spec_float)
| VBool (b : bool)
| VNone.

(** [x or None] on a string. *)
Definition or_None (s : string) : option string :=
  match s with EmptyString => None | _ => Some s end.

(** [parse_employee] ([src/etl.py], l.64-74): the result triple is
    (employee id, resource name, resource title). *)
Definition parse_employee (raw : cell)
    : option string * option string * option string :=
  match raw with
  | VStr raw =>
      match PyStr.split_once ":" raw with
      | Some (p0, p1) =>
          let emp_id := or_None (PyStr.filter PyStr.is_digit p0) in
          let title := PyStr.strip p1 in
          let name :=
            if PyStr.contains " - " title
            then PyStr.strip (PyStr.last_piece (PyStr.split " - " title))
            else title in
          (emp_id, Some name, Some title)
      | None => (None, Some (PyStr.strip raw), Some (PyStr.strip raw))
      end
  | _ => (None, None, None)
  end.

(** ** Workstream pair discovery *)

Module Re.

(** [int(m.group(1))] on a run of ASCII digits. *)
Fixpoint int_of_digits (acc : N) (s : string) : N :=
  match s with
  | EmptyString => acc
  | String c s' =>
      int_of_digits (10 * acc + N.of_nat (nat_of_ascii c - 48))%N s'
  end.

(** The longest prefix of digits and what follows it. *)
Fixpoint span_digits (s : string) : string * string :=
  match s with
  | EmptyString => (EmptyString, EmptyString)
  | String c s' =>
      if PyStr.is_digit c
      then let '(d, r) := span_digits s' in (String c d, r)
      else (EmptyString, s)
  end.

(** A literal under [re.I]: the text must start with the literal up to
    letter case; what follows the literal is returned. *)
Fixpoint literal_ci (lit s : string) : option string :=
  match lit, s with
  | EmptyString, _ => Some s
  | String _ _, EmptyString => None
  | String a lit', String c s' =>
      if Ascii.eqb (PyStr.lower_ascii a) (PyStr.lower_ascii c)
      then literal_ci lit' s' else None
  end.

(** [%+]: one or more percent signs. *)
Fixpoint skip_percents (s : string) : string :=
  match s with
  | String "%" s' => skip_percents s'
  | _ => s
  end.

Definition percents (s : string) : option string :=
  match s with
  | String "%" s' => Some (skip_percents s')
  | _ => None
  end.

(** The common tail [\s*(\d+)\s*$] of both patterns, returning the
    group as an integer. *)
Definition index_tail (s : string) : option N :=
  let '(d, r) := span_digits (PyStr.lstrip s) in
  match d, PyStr.lstrip r with
  | String _ _, EmptyString => Some (int_of_digits 0 d)
  | _, _ => None
  end.

End Re.

(** [WS_NAME_RE = ^\s*Workstream\s*(\d+)\s*$], case-insensitive;
    the result is [int(m.group(1))] when the name matches. *)
Definition WS_NAME_RE (c : string) : option N :=
  Re.literal_ci "Workstream" (PyStr.lstrip c) ≫= Re.index_tail.

(** [PCT_NAME_RE = ^\s*%+\s*(\d+)\s*$]. *)
Definition PCT_NAME_RE (c : string) : option N :=
  Re.percents (PyStr.lstrip c) ≫= Re.index_tail.

(** The loop of [find_workstream_pairs] ([src/etl.py], l.50-58): the two
    dictionaries after the columns seen so far. *)
Definition scan_column (acc : gmap N string * gmap N string) (c : string)
    : gmap N string * gmap N string :=
  match WS_NAME_RE c with
  | Some k => (<[k := c]> acc.1, acc.2)
  | None =>
      match PCT_NAME_RE c with
      | Some k => (acc.1, <[k := c]> acc.2)
      | None => acc
      end
  end.

Definition scan_columns (cols : list string) : gmap N string * gmap N string :=
  foldl scan_column (∅, ∅) cols.

(** [sorted(set(ws_cols) & set(pct_cols))] *)
Definition common_indices (ws pct : gmap N string) : list N :=
  merge_sort N.le (elements (dom ws ∩ dom pct)).

(** [find_workstream_pairs] ([src/etl.py], l.48-62). *)
Definition find_workstream_pairs (cols : list string) : list (string * string) :=
  let '(ws_cols, pct_cols) := scan_columns cols in
  (λ k, (ws_cols !!! k, pct_cols !!! k)) <$> common_indices ws_cols pct_cols.

(** The last column of [cols] whose name matches [re] with index [k]:
    the entry a dictionary filled in column order ends with. *)
Definition last_match (re : string → option N) (k : N) (cols : list string)
    : option string :=
  last (filter (λ c, re c = Some k) cols).

(** ** Header classifier *)

Definition SENTINELS : gset string :=
  {[ "Supervisor or Hiring Manager"; "Resource or Rec/Offer"; "L3 Org" ]}.

(** [_likely_header_row] ([src/etl.py], l.20-23).  The cells are text,
    so no cell is dropped by the [pd.notna] filter. *)
Definition _likely_header_row (row_vals : list string) : bool :=
  let vals : gset string := list_to_set (PyStr.strip <$> row_vals) in
  bool_decide (2 ≤ size (SENTINELS ∩ vals))%nat.

(** The scan of [load_pet_data_databricks] (notebook, l.165-174): the
    first row of the window that looks like a header, if any. *)
Fixpoint scan_header_rows (i : nat) (window : list (list string))
    : bool * nat :=
  match window with
  | [] => (false, 0)
  | r :: rest =>
      if _likely_header_row r then (true, i) else scan_header_rows (S i) rest
  end.

(** Header detection of [load_pet_data_databricks] (notebook, l.162-181):
    the pair ([has_business_headers], [header_row_idx]).  [raw_rows] are
    the rows of the file read without a header; [nrows=10] keeps the
    first ten. *)
Definition detect_header (file_format : string) (raw_rows : list (list string))
    : bool * nat :=
  let df_pandas := take 10 raw_rows in
  if String.eqb file_format "auto" then
    scan_header_rows 0 (take (min 10 (length df_pandas)) df_pandas)
  else if String.eqb file_format "new" then (true, 1)
  else (false, 0).

(** ** Float64 values *)

Module F64.

Definition prec : Z := 53.
Definition emax : Z := 1024.

Definition of_Z (z : Z) : spec_float := binary_normalize prec emax z 0 false.

Definition nan : spec_float := S754_nan.
Definition zero : spec_float := S754_zero false.
Definition one : spec_float := Eval vm_compute in of_Z 1.
Definition hundred : spec_float := Eval vm_compute in of_Z 100.

(** The literal [0.85]: the float64 nearest to 85/100. *)
Definition threshold : spec_float :=
  Eval vm_compute in SFdiv prec emax (of_Z 85) (of_Z 100).

Definition add : spec_float → spec_float → spec_float := SFadd prec emax.
Definition mul : spec_float → spec_float → spec_float := SFmul prec emax.
Definition div : spec_float → spec_float → spec_float := SFdiv prec emax.

(** [a > b], [a < b], [a <= b] and [a == b]; all false on NaN. *)
Definition gt (a b : spec_float) : bool := SFltb b a.
Definition lt (a b : spec_float) : bool := SFltb a b.
Definition le (a b : spec_float) : bool := SFleb a b.
Definition eq (a b : spec_float) : bool := SFeqb a b.

Definition isna (x : spec_float) : bool :=
  match x with S754_nan => true | _ => false end.

(** [Series.fillna(v)] on one value. *)
Definition fillna (v x : spec_float) : spec_float := if isna x then v else x.

(** [Series.dropna()] *)
Definition dropna (col : list spec_float) : list spec_float :=
  List.filter (λ x, negb (isna x)) col.

(** [Series.between(0, 1)] on one value (both ends included). *)
Definition between_0_1 (x : spec_float) : bool := le zero x && le x one.

Definition count_true (bs : list bool) : nat := length (List.filter id bs).

(** [Series.mean()] of a boolean series: the float64 quotient of the
    number of [True] by the length, NaN for the empty series. *)
Definition mean (bs : list bool) : spec_float :=
  match bs with
  | [] => nan
  | _ => div (of_Z (Z.of_nat (count_true bs))) (of_Z (Z.of_nat (length bs)))
  end.

(** One position of [a.add(b, fill_value=0)]: a value missing on one
    side only is replaced by 0 before the sum. *)
Definition add_fill_value (a b : spec_float) : spec_float :=
  match isna a, isna b with
  | true, false => add zero b
  | false, true => add a zero
  | _, _ => add a b
  end.

End F64.

(** ** Data frames *)

Record Frame (A : Type) := mkFrame {
  columns : list string;
  rows : list (list A)
}.
Arguments mkFrame {A} _ _.
Arguments columns {A} _.
Arguments rows {A} _.

(** Every row has one cell per column label. *)
Definition well_formed {A} (df : Frame A) : Prop :=
  Forall (λ r, length r = length (columns df)) (rows df).

Definition len {A} (df : Frame A) : nat := length (rows df).

(** [df.columns.get_loc(name)] for a label that occurs once; the first
    position otherwise. *)
Definition get_loc (name : string) (cols : list string) : option nat :=
  fst <$> list_find (λ c, c = name) cols.

(** [df.iloc[:, i]] *)
Definition iloc_col {A} (d : A) (i : nat) (df : Frame A) : list A :=
  (λ r, default d (r !! i)) <$> rows df.

(** [df[name]] for a label of the frame.  The pipeline reads a label
    only after testing for it or assigning it; off that domain the model
    gives a column of [None]. *)
Definition getitem (name : string) (df : Frame cell) : list cell :=
  match get_loc name (columns df) with
  | Some i => iloc_col VNone i df
  | None => replicate (len df) VNone
  end.

(** [df[name] = vals]: overwrite the column(s) labelled [name], or append
    a new last column. *)
Definition setitem {A} (name : string) (vals : list A) (df : Frame A) : Frame A :=
  if bool_decide (name ∈ columns df) then
    mkFrame (columns df)
      (zip_with (λ r v,
         zip_with (λ c x, if bool_decide (c = name) then v else x) (columns df) r)
         (rows df) vals)
  else
    mkFrame (columns df ++ [name])%list
      (zip_with (λ r v, (r ++ [v])%list) (rows df) vals).

(** [df[name] = v] for a scalar [v]. *)
Definition setitem_scalar {A} (name : string) (v : A) (df : Frame A) : Frame A :=
  setitem name (replicate (len df) v) df.

(** [df.rename(columns={k: v})] *)
Definition rename {A} (k v : string) (df : Frame A) : Frame A :=
  mkFrame ((λ c, if bool_decide (c = k) then v else c) <$> columns df) (rows df).

(** Exceptions and results. *)
Inductive exn := ValueError (msg : string).

Inductive result (A : Type) :=
| Ok (a : A)
| Raise (e : exn).
Arguments Ok {A} _.
Arguments Raise {A} _.

(** [pd.DataFrame(records, index=...)] for a list of triples, as its list
    of columns: three columns, or none when there is no record. *)
Definition records_columns (recs : list (cell * cell * cell)) : list (list cell) :=
  match recs with
  | [] => []
  | _ => [ (λ r, r.1.1) <$> recs; (λ r, r.1.2) <$> recs; (λ r, r.2) <$> recs ]
  end.

(** [df[keys] = value] for a frame [value]: pandas checks that [value]
    has as many columns as there are keys, then assigns them in turn. *)
Definition setitem_array (keys : list string) (value : list (list cell))
    (df : Frame cell) : result (Frame cell) :=
  if bool_decide (length value = length keys) then
    Ok (foldl (λ d kv, setitem kv.1 kv.2 d) df (zip keys value))
  else Raise (ValueError "Columns must be same length as key").

(** ** Embedded header reader *)

(** The name kept for one column ([src/etl.py], l.37-40). *)
Definition combined_header (tech_header business_header : string) : string :=
  if negb (String.eqb business_header "")
     && negb (String.eqb (PyStr.strip business_header) "")
     && negb (String.eqb (PyStr.strip business_header) "nan")
  then PyStr.strip business_header
  else tech_header.

(** [read_with_embedded_header] ([src/etl.py], l.25-46), on the frame
    [pd.read_csv(csv_path, header=0, dtype=str, keep_default_na=False)]
    returns: every cell is text, a blank cell is the empty text. *)
Definition read_with_embedded_header (df : Frame string) : Frame string :=
  match rows df with
  | business_headers :: rest =>
      mkFrame (zip_with combined_header (columns df) business_headers) rest
  | [] => df
  end.

(** ** Hierarchy reconstructor *)

(** Python truth value of a cell. *)
Definition truthy (c : cell) : bool :=
  match c with
  | VStr s => negb (String.eqb s "")
  | VNum f => negb (F64.eq f F64.zero)
  | VBool b => b
  | VNone => false
  end.

(** The test [c != ''] against the empty text. *)
Definition differs_from_empty (c : cell) : bool :=
  match c with
  | VStr s => negb (String.eqb s "")
  | _ => true
  end.

(** The loop of [load_latest_csv] over the rows ([src/etl.py], l.143-155):
    [j] is the position of the supervisor column, [current_supervisor]
    the accumulator ([VNone] until a supervisor is seen). *)
Fixpoint reconstruct_rows (j : nat) (current_supervisor : cell)
    (rs : list (list cell)) : list (list cell) :=
  match rs with
  | [] => []
  | r :: rest =>
      let supervisor_value := default VNone (r !! j) in
      if truthy supervisor_value && differs_from_empty supervisor_value then
        <[j := VStr "Self"]> r :: reconstruct_rows j supervisor_value rest
      else if truthy current_supervisor then
        <[j := current_supervisor]> r :: reconstruct_rows j current_supervisor rest
      else
        <[j := VStr "Unassigned"]> r :: reconstruct_rows j current_supervisor rest
  end.

(** [src/etl.py], l.136-155. *)
Definition reconstruct_supervisors (df : Frame cell) : Frame cell :=
  match get_loc "supervisor" (columns df) with
  | Some j => mkFrame (columns df) (reconstruct_rows j VNone (rows df))
  | None => df
  end.

(** ** Allocation flags *)

(** The three flags of one row ([src/etl.py], l.165-167), in the order
    overallocated, underallocated, unassigned. *)
Definition overallocated (total : spec_float) : bool := F64.gt total F64.hundred.
Definition underallocated (total : spec_float) : bool := F64.lt total F64.hundred.
Definition unassigned (total : spec_float) : bool := F64.eq total F64.zero.

(** The notebook's variant of the second flag (notebook, l.231). *)
Definition underallocated_databricks (total : spec_float) : bool :=
  F64.lt total F64.hundred && F64.gt total F64.zero.

(** At most one of three flags holds. *)
Definition at_most_one (a b c : bool) : bool :=
  negb (a && b) && negb (a && c) && negb (b && c).

(** ** The loader *)

(** The float held by a numeric cell. *)
Definition as_float (c : cell) : spec_float :=
  match c with
  | VNum f => f
  | VBool b => if b then F64.one else F64.zero
  | _ => F64.nan
  end.

Definition cell_of_option (o : option string) : cell :=
  match o with Some s => VStr s | None => VNone end.

(** The column renaming of [load_latest_csv] ([src/etl.py], l.116-124),
    in the order the dictionary is iterated. *)
Definition rename_map : list (string * string) :=
  [ ("Supervisor or Hiring Manager", "supervisor");
    ("Resource or Rec/Offer", "resource_raw");
    ("Type", "type");
    ("L3 Org", "l3_org");
    ("VP Org", "vp_org");
    ("Director Org", "director_org");
    ("Total Workstream Allocation %", "total_workstream_allocation_pct") ].

(** One turn of the loop at l.125-129. *)
Definition rename_step (df : Frame cell) (kv : string * string) : Frame cell :=
  if bool_decide (kv.1 ∈ columns df) then rename kv.1 kv.2 df
  else setitem_scalar kv.2 (VStr "") df.

(** The loop at l.125-129. *)
Definition rename_columns (df : Frame cell) : Frame cell :=
  foldl rename_step df rename_map.

(** The cells of a frame read with [dtype=str]. *)
Definition text_frame (df : Frame string) : Frame cell :=
  mkFrame (columns df) ((λ r : list string, VStr <$> r) <$> rows df).

(** l.132-133: the parsed triples become three columns. *)
Definition parse_resource_fields (df : Frame cell) : result (Frame cell) :=
  let parsed := parse_employee <$> getitem "resource_raw" df in
  let value :=
    records_columns
      ((λ t, (cell_of_option t.1.1, cell_of_option t.1.2, cell_of_option t.2))
         <$> parsed) in
  setitem_array ["employee_id"; "resource_name"; "resource_title"] value df.

Definition affirmative : list string := ["y"; "yes"; "true"; "1"; "active"].

Section Pipeline.

(** What [pd.to_numeric(..., errors="coerce")] makes of one text cell:
    its float64 value, NaN when the text is not a number. *)
Variable str_to_float : string → spec_float.

(** [str(x)] for a float [x]. *)
Variable float_to_str : spec_float → string.

Definition to_numeric_cell (c : cell) : spec_float :=
  match c with
  | VStr s => str_to_float s
  | VNum f => f
  | VBool b => if b then F64.one else F64.zero
  | VNone => F64.nan
  end.

Definition to_numeric (col : list cell) : list spec_float :=
  to_numeric_cell <$> col.

(** The test of l.87: [col.dropna().between(0,1).mean() > 0.85]. *)
Definition is_fractional (col : list spec_float) : bool :=
  F64.gt (F64.mean (F64.between_0_1 <$> F64.dropna col)) F64.threshold.

(** l.86-88: one percent column, coerced and scaled. *)
Definition percent_column (pct_col : string) (df : Frame cell) : list spec_float :=
  let col := to_numeric (getitem pct_col df) in
  if is_fractional col then (λ x, F64.mul x F64.hundred) <$> col else col.

(** l.84-89: the running sum [comp] over the pairs, the first pair
    initialising it. *)
Definition sum_percent_columns (pct0 : string) (rest : list (string * string))
    (df : Frame cell) : list spec_float :=
  foldl (λ comp p, zip_with F64.add_fill_value comp (percent_column p.2 df))
        (percent_column pct0 df) rest.

(** [compute_total_allocation] ([src/etl.py], l.76-96). *)
Definition compute_total_allocation (df : Frame cell) : Frame cell :=
  match find_workstream_pairs (columns df) with
  | [] =>
      let df := setitem_scalar "computed_total_pct" (VNum F64.zero) df in
      setitem "total_allocation_pct"
        (if bool_decide ("total_workstream_allocation_pct" ∈ columns df)
         then getitem "total_workstream_allocation_pct" df
         else replicate (len df) VNone) df
  | (_, pct0) :: rest =>
      let comp := sum_percent_columns pct0 rest df in
      let df := setitem "computed_total_pct" (VNum <$> (F64.fillna F64.zero <$> comp)) df in
      let canon := "Total Workstream Allocation %" in
      if bool_decide (canon ∈ columns df) then
        setitem "total_allocation_pct"
          (zip_with (λ x c, if F64.isna x then c else VNum x)
             (to_numeric (getitem canon df)) (getitem "computed_total_pct" df)) df
      else
        setitem "total_allocation_pct" (getitem "computed_total_pct" df) df
  end.

(** [x.astype(str)] on one cell. *)
Definition astype_str (c : cell) : string :=
  match c with
  | VStr s => s
  | VNum f => float_to_str f
  | VBool b => if b then "True" else "False"
  | VNone => "None"
  end.

(** The value of the flag for one status cell (l.105-106). *)
Definition status_is_affirmative (c : cell) : bool :=
  bool_decide (PyStr.lower (PyStr.strip (astype_str c)) ∈ affirmative).

(** [detect_workstream1_completion] ([src/etl.py], l.98-109). *)
Definition detect_workstream1_completion (df : Frame cell) : Frame cell :=
  let df := setitem_scalar "workstream1_completed" (VBool false) df in
  match get_loc "Workstream Status Active" (columns df) with
  | Some i =>
      setitem "workstream1_completed"
        ((λ c, VBool (status_is_affirmative c)) <$> iloc_col VNone i df) df
  | None => df
  end.

(** l.161-167: the final numeric total and the three flags. *)
Definition derive_flags (df : Frame cell) : Frame cell :=
  let total := F64.fillna F64.zero <$> to_numeric (getitem "total_allocation_pct" df) in
  let df := setitem "total_allocation_pct" (VNum <$> total) df in
  let total := as_float <$> getitem "total_allocation_pct" df in
  let df := setitem "overallocated" ((λ t, VBool (overallocated t)) <$> total) df in
  let df := setitem "underallocated" ((λ t, VBool (underallocated t)) <$> total) df in
  setitem "unassigned" ((λ t, VBool (unassigned t)) <$> total) df.

(** [load_latest_csv] ([src/etl.py], l.111-168), from the frame that
    [pd.read_csv] hands to [read_with_embedded_header]. *)
Definition load_latest_csv (csv : Frame string) : result (Frame cell) :=
  let df := text_frame (read_with_embedded_header csv) in
  let df := rename_columns df in
  match parse_resource_fields df with
  | Raise e => Raise e
  | Ok df =>
      let df := reconstruct_supervisors df in
      let df := compute_total_allocation df in
      let df := detect_workstream1_completion df in
      Ok (derive_flags df)
  end.

(** *** The notebook's totals *)

(** [Series.max()] and [Series.min()] of a series without missing
    values; NaN for the empty series. *)
Definition series_max (l : list spec_float) : spec_float :=
  match l with
  | [] => F64.nan
  | x :: l' => foldl (λ m y, if F64.lt m y then y else m) x l'
  end.

Definition series_min (l : list spec_float) : spec_float :=
  match l with
  | [] => F64.nan
  | x :: l' => foldl (λ m y, if F64.lt y m then y else m) x l'
  end.

(** Notebook, l.213-216: one percent column, missing values as 0, scaled
    when all its values lie between 0 and 1. *)
Definition databricks_percent_column (pct_col : string) (df : Frame cell)
    : list spec_float :=
  let col_data := F64.fillna F64.zero <$> to_numeric (getitem pct_col df) in
  if F64.le (series_max col_data) F64.one && F64.le F64.zero (series_min col_data)
  then (λ x, F64.mul x F64.hundred) <$> col_data
  else col_data.

(** [Series.isna()] on one cell. *)
Definition cell_isna (c : cell) : bool :=
  match c with
  | VNone => true
  | VNum f => F64.isna f
  | _ => false
  end.

(** Notebook, l.208-227 of [load_pet_data_databricks]: the computed total
    and the final total, which prefers the official column under its
    renamed label. *)
Definition databricks_totals (df : Frame cell) : Frame cell :=
  let df :=
    match find_workstream_pairs (columns df) with
    | [] => setitem_scalar "computed_total_pct" (VNum F64.zero) df
    | (_, pct0) :: rest =>
        setitem "computed_total_pct"
          (VNum <$> foldl (λ total_allocation p,
                      zip_with F64.add total_allocation
                        (databricks_percent_column p.2 df))
                    (databricks_percent_column pct0 df) rest) df
    end in
  if bool_decide ("total_workstream_allocation_pct" ∉ columns df)
     || forallb cell_isna (getitem "total_workstream_allocation_pct" df)
  then setitem "total_allocation_pct" (getitem "computed_total_pct" df) df
  else
    setitem "total_allocation_pct"
      (zip_with (λ x c, if F64.isna x then c else VNum x)
         (to_numeric (getitem "total_workstream_allocation_pct" df))
         (getitem "computed_total_pct" df)) df.

(** [create_hierarchical_summary] ([src/etl.py], l.170-245) enters the
    properties below only through the point where it is called, so it is
    a parameter here. *)
Variable create_hierarchical_summary : Frame cell → result (Frame cell).

(** [process_pet_csv] ([src/etl.py], l.247-258): the [except] clause logs
    and raises again. *)
Definition process_pet_csv (csv : Frame string)
    : result (Frame cell * Frame cell) :=
  match load_latest_csv csv with
  | Raise e => Raise e
  | Ok df =>
      match create_hierarchical_summary df with
      | Raise e => Raise e
      | Ok hierarchy_df => Ok (df, hierarchy_df)
      end
  end.

End Pipeline.

(** ** A reader of decimal literals

    An instance of the text-to-float conversion for plain decimal
    literals (an optional sign, digits, an optional point), which is all
    the worked examples need; the quotient by the power of ten is the
    nearest float64 for literals of up to fifteen digits.  Other text is
    not a number. *)

Module Decimal.

Fixpoint all_digits (s : string) : bool :=
  match s with
  | EmptyString => true
  | String c s' => PyStr.is_digit c && all_digits s'
  end.

Definition unsigned (s : string) : spec_float :=
  match PyStr.split_once "." s with
  | None =>
      match s with
      | EmptyString => F64.nan
      | _ => if all_digits s then F64.of_Z (Z.of_N (Re.int_of_digits 0 s))
             else F64.nan
      end
  | Some (a, b) =>
      if all_digits a && all_digits b && negb (String.eqb (a ++ b) "")
      then F64.div (F64.of_Z (Z.of_N (Re.int_of_digits 0 (a ++ b))))
                   (F64.of_Z (10 ^ Z.of_nat (String.length b)))
      else F64.nan
  end.

Definition to_float (s : string) : spec_float :=
  match PyStr.strip s with
  | String "-" r => SFopp (unsigned r)
  | String "+" r => unsigned r
  | t => unsigned t
  end.

End Decimal.

(** ** Sample frames *)

Definition supervisor_example : Frame cell :=
  mkFrame ["supervisor"; "resource_raw"]
    [ [VStr "alice@co"; VStr "R1"]; [VStr ""; VStr "R2"]; [VStr ""; VStr "R3"];
      [VStr "bob@co"; VStr "R4"]; [VStr ""; VStr "R5"] ].

Definition unlabelled_csv : Frame string :=
  mkFrame ["Unnamed: 0"; "Workstream 1"; "% 1"]
    [["1: Req - Ann"; " nan "; "40"]; ["2: Req - Bo"; "Build"; "60"]].

Definition late_supervisor : Frame cell :=
  mkFrame ["resource_raw"; "supervisor"]
    [[VStr "R0"; VStr ""]; [VStr "R1"; VStr "carol@co"]; [VStr "R2"; VStr ""]].

Definition status_example : Frame cell :=
  mkFrame ["resource_raw"; "Workstream Status Active"; "Workstream Status Active"]
    [ [VStr "R1"; VStr " Yes "; VStr "no"]; [VStr "R2"; VStr "done"; VStr "y"];
      [VStr "R3"; VStr "ACTIVE"; VStr ""]; [VStr "R4"; VStr ""; VStr "1"] ].

Definition two_fractions_example : Frame cell :=
  mkFrame ["resource_raw"; "Workstream 1"; "% 1"; "Workstream 2"; "% 2"]
    [ [VStr "Jane Doe"; VStr "Alpha"; VStr "0.5"; VStr "Beta"; VStr "0.3"] ].

Definition one_fraction_column : Frame cell :=
  mkFrame ["resource_raw"; "Workstream 1"; "% 1"]
    [ [VStr "Ann"; VStr "Alpha"; VStr "0.5"]; [VStr "Bo"; VStr "Alpha"; VStr "0.3"] ].

(** A file with an official total: the technical header, the business
    header row, and one resource with 50 on its workstream and an
    official total of 75. *)
Definition official_total_csv : Frame string :=
  mkFrame ["Unnamed: 0"; "Workstream 1"; "% 1"; "Unnamed: 3"]
    [ ["Resource or Rec/Offer"; ""; ""; "Total Workstream Allocation %"];
      ["12345: Req - Jane Doe"; "Alpha"; "50"; "75"] ].

(** The same file without workstream pairs. *)
Definition official_total_only_csv : Frame string :=
  mkFrame ["Unnamed: 0"; "Unnamed: 1"]
    [ ["Resource or Rec/Offer"; "Total Workstream Allocation %"];
      ["12345: Req - Jane Doe"; "75"]; ["Bo"; "n/a"] ].

(** The data of [official_total_csv] as the notebook holds it after its
    renaming. *)
Definition official_total_renamed : Frame cell :=
  mkFrame ["resource_raw"; "Workstream 1"; "% 1"; "total_workstream_allocation_pct"]
    [ [VStr "12345: Req - Jane Doe"; VStr "Alpha"; VStr "50"; VStr "75"];
      [VStr "7: Dev - Bo Kim"; VStr "Alpha"; VStr "40"; VStr "n/a"] ].

(** A resource without any allocation. *)
Definition idle_csv : Frame string :=
  mkFrame ["Unnamed: 0"; "Workstream 1"; "% 1"]
    [ ["Resource or Rec/Offer"; ""; ""];
      ["777: Dev - Ann Lee"; ""; "0"];
      ["778: Dev - Bo Kim"; "Alpha"; "120"] ].

(** For every column of at most [bound] non-missing values, the float
    test of [is_fractional] on [k] values out of [n] in range agrees with
    the exact comparison [k / n > 85 / 100]. *)
Definition threshold_exact_upto (bound : nat) : bool :=
  forallb (λ n,
    forallb (λ k,
      Bool.eqb
        (F64.gt (F64.div (F64.of_Z (Z.of_nat k)) (F64.of_Z (Z.of_nat n)))
                F64.threshold)
        (17 * n <? 20 * k)%nat)
      (seq 0 (S n)))
    (seq 1 bound).

(** The frame of a run that did not raise. *)
Definition frame_of (r : result (Frame cell)) : Frame cell :=
  match r with Ok df => df | Raise _ => mkFrame [] [] end.

(** The sample files hold no float in a status column, so the text of a
    float is never asked for in the worked examples. *)
Definition no_float_text : spec_float → string := λ _, "".

(** ** The scale rule in the words of the specification

    Independent of the code above: which values of a percent column are
    missing, which lie in [0, 1], and when more than 85% of them do.
    The properties compare [is_fractional] with this rule. *)

Module ScaleRule.

(** The rational number a float64 stands for: [m * 2 ^ e] with its sign;
    none for NaN and the infinities. *)
Definition value (x : spec_float) : option Q :=
  match x with
  | S754_zero _ => Some 0%Q
  | S754_finite s m e =>
      let n := if s then Z.neg m else Z.pos m in
      Some (if (0 <=? e)%Z then inject_Z (n * 2 ^ e)
            else Qmake n (2 ^ Z.to_pos (- e)))
  | _ => None
  end.

#[global] Instance missing_dec (x : spec_float) : Decision (x = S754_nan).
Proof. destruct x; first [by left | by right]. Defined.

(** The values of a column that are not missing, in their order. *)
Definition non_missing (col : list spec_float) : list spec_float :=
  filter (λ x, x ≠ S754_nan) col.

(** The value lies in the closed interval [0, 1]. *)
Definition in_unit_interval (x : spec_float) : bool :=
  match value x with
  | Some q => Qle_bool 0 q && Qle_bool q 1
  | None => false
  end.

Definition non_missing_count (col : list spec_float) : nat :=
  length (non_missing col).

Definition in_range_count (col : list spec_float) : nat :=
  length (List.filter in_unit_interval (non_missing col)).

(** More than 85% of the non-missing values lie in [0, 1], in exact
    arithmetic; a column without values is not of this kind. *)
Definition mostly_fractions (col : list spec_float) : Prop :=
  (0 < non_missing_count col
   ∧ 85 * non_missing_count col < 100 * in_range_count col)%nat.

End ScaleRule.

(** A float64: a finite value has a canonical mantissa and exponent. *)
Definition is_float64 (x : spec_float) : Prop :=
  valid_binary F64.prec F64.emax x = true.

(** One resource on two rows of a single fractional pair column. *)
Definition one_pair_column_two_values : Frame cell :=
  mkFrame ["resource_raw"; "Workstream 1"; "% 1"]
    [ [VStr "7: Dev - Ann Lee"; VStr "Alpha"; VStr "0.5"];
      [VStr "7: Dev - Ann Lee"; VStr "Beta"; VStr "0.3"] ].

(** A column of two fractions between two missing values. *)
Definition mixed_column : list spec_float :=
  [ F64.nan; S754_zero true; F64.one; F64.nan ].

(** * Properties *)

Local Open Scope nat_scope.

(** ** Employee field parser *)

Lemma split_once_no_sep c s :
  PyStr.mem c s = false → PyStr.split_once c s = None.
Proof.
  induction s as [|d s IH]; simpl; [done|].
  destruct (Ascii.eqb c d); simpl; [done|].
  intros H. by rewrite IH.
Qed.

Lemma split_once_first c a b :
  PyStr.mem c a = false → PyStr.split_once c (a ++ String c b) = Some (a, b).
Proof.
  induction a as [|d a IH]; simpl.
  - intros _. by rewrite Ascii.eqb_refl.
  - destruct (Ascii.eqb c d); simpl; [done|].
    intros H. by rewrite IH.
Qed.

(** The split of [l.72] is a left-to-right scan, so with overlapping
    separators the name starts after the last occurrence the scan finds. *)
Example parse_employee_overlap :
  parse_employee (VStr "7: a - - b") = (Some "7", Some "- b", Some "a - - b").
Proof. reflexivity. Qed.

Example parse_employee_open_req :
  parse_employee (VStr "TBD: Open Role - Data - Analyst")
  = (None, Some "Analyst", Some "Open Role - Data - Analyst").
Proof. reflexivity. Qed.

Example parse_employee_not_text :
  parse_employee VNone = (None, None, None).
Proof. reflexivity. Qed.

(** C2, as stated, fails: on ["12345: Req - Jane Doe"] the third
    component (the resource title) is the whole text after the colon,
    not ["Req"]. *)
Lemma parse_employee_title_is_not_Req :
  ¬ (let '(employee_id, resource_name, resource_title) :=
       parse_employee (VStr "12345: Req - Jane Doe") in
     employee_id = Some "12345" ∧ resource_title = Some "Req"
     ∧ resource_name = Some "Jane Doe").
Proof. simpl. intros (_ & Htitle & _). discriminate Htitle. Qed.

(** C2 (amended): [parse_employee] maps ["12345: Req - Jane Doe"] to
    employee id ["12345"], resource name ["Jane Doe"] and resource title
    ["Req - Jane Doe"] (the trimmed text after the first colon); on any
    text without a colon, such as ["Jane Doe"], the id is [None] and both
    name and title are the trimmed input.  In general the text before
    the first colon gives the id (its digits, [None] when it has none)
    and the trimmed text after it is the title. *)
Theorem parse_employee_examples :
  parse_employee (VStr "12345: Req - Jane Doe")
    = (Some "12345", Some "Jane Doe", Some "Req - Jane Doe")
  ∧ parse_employee (VStr "Jane Doe") = (None, Some "Jane Doe", Some "Jane Doe")
  ∧ (∀ raw : string,
       PyStr.mem ":" raw = false →
       parse_employee (VStr raw)
         = (None, Some (PyStr.strip raw), Some (PyStr.strip raw)))
  ∧ (∀ before after : string,
       PyStr.mem ":" before = false →
       ∃ name : string,
         parse_employee (VStr (before ++ String ":" after))
         = (or_None (PyStr.filter PyStr.is_digit before), Some name,
            Some (PyStr.strip after))
         ∧ (PyStr.contains " - " (PyStr.strip after) = false →
            name = PyStr.strip after)).
Proof.
  split; [reflexivity|]. split; [reflexivity|]. split.
  - intros raw Hraw. unfold parse_employee.
    by rewrite (split_once_no_sep _ _ Hraw).
  - intros before after Hbefore. unfold parse_employee.
    rewrite (split_once_first _ _ _ Hbefore).
    eexists. split; [reflexivity|]. by intros ->.
Qed.

Lemma parse_employee_examples_witness :
  (PyStr.mem ":" "  Jane Doe " = false
   ∧ parse_employee (VStr "  Jane Doe ")
     = (None, Some "Jane Doe", Some "Jane Doe"))
  ∧ ∃ name : string,
      parse_employee (VStr "ID 42: Contractor")
      = (Some "42", Some name, Some "Contractor")
      ∧ (PyStr.contains " - " "Contractor" = false → name = "Contractor").
Proof.
  split.
  - split; [reflexivity|].
    exact (proj1 (proj2 (proj2 parse_employee_examples)) "  Jane Doe " eq_refl).
  - exact (proj2 (proj2 (proj2 parse_employee_examples)) "ID 42" " Contractor" eq_refl).
Defined.

(** ** Float comparisons *)

Lemma SFcompare_Lt_Gt a b :
  SFcompare a b = Some Lt → SFcompare b a = Some Gt.
Proof.
  destruct a as [sa|sa| |sa ma ea], b as [sb|sb| |sb mb eb]; simpl;
    try destruct sa; try destruct sb; try done;
    rewrite (Z.compare_antisym ea eb);
    destruct (ea ?= eb)%Z; simpl; try done;
    change (Pos.compare_cont Eq mb ma)
      with (Pos.compare_cont (CompOpp Eq) mb ma);
    rewrite <- (Pos.compare_cont_antisym ma mb Eq);
    destruct (Pos.compare_cont Eq ma mb); simpl; congruence.
Qed.

Lemma SFltb_asym a b : SFltb a b = true → SFltb b a = false.
Proof.
  unfold SFltb. destruct (SFcompare a b) as [[]|] eqn:E; try done.
  by rewrite (SFcompare_Lt_Gt _ _ E).
Qed.

Lemma SFeqb_zero_inv t : SFeqb t F64.zero = true → ∃ s, t = S754_zero s.
Proof.
  destruct t as [s|[]| |[] m e]; try done. by exists s.
Qed.

(** ** Header classifier *)

Lemma sentinel_not_empty s : s ∈ SENTINELS → s ≠ "".
Proof.
  unfold SENTINELS. rewrite !elem_of_union, !elem_of_singleton.
  intros [[-> | ->] | ->]; discriminate.
Qed.

Lemma sentinel_hits_ignore_blank (l : list string) :
  SENTINELS ∩ list_to_set l
  = SENTINELS ∩ list_to_set (List.filter (λ v, negb (String.eqb v "")) l).
Proof.
  apply set_eq. intros x.
  rewrite !elem_of_intersection, !elem_of_list_to_set, !list_elem_of_In.
  rewrite filter_In. split; [|tauto].
  intros [Hs Hl]. repeat split; try done.
  apply negb_true_iff, String.eqb_neq. by apply sentinel_not_empty.
Qed.

Lemma two_elements (X : gset string) :
  2 ≤ size X ↔ ∃ a b, a ≠ b ∧ a ∈ X ∧ b ∈ X.
Proof.
  split.
  - intros H.
    destruct (set_choose_L X) as [a Ha].
    { intros ->. rewrite size_empty in H. lia. }
    destruct (set_choose_L (X ∖ {[a]})) as [b Hb].
    { intros HE. assert (size (X ∖ {[a]}) = 0) as H0 by (by rewrite HE, size_empty).
      rewrite size_difference in H0 by (by apply singleton_subseteq_l).
      rewrite size_singleton in H0. lia. }
    apply elem_of_difference in Hb as [Hb Hba].
    rewrite elem_of_singleton in Hba.
    exists a, b. repeat split; [congruence|done|done].
  - intros (a & b & Hab & Ha & Hb).
    assert ({[a; b]} ⊆ X) as Hsub.
    { intros x. rewrite elem_of_union, !elem_of_singleton. by intros [-> | ->]. }
    apply subseteq_size in Hsub.
    rewrite size_union in Hsub
      by (by apply disjoint_singleton_l, not_elem_of_singleton).
    rewrite !size_singleton in Hsub. lia.
Qed.

Lemma scan_header_rows_none i window :
  Forall (λ r, _likely_header_row r = false) window →
  scan_header_rows i window = (false, 0).
Proof.
  intros H. revert i. induction H as [|r rest Hr _ IH]; intros i; simpl; [done|].
  by rewrite Hr.
Qed.

Lemma scan_header_rows_first i window k r :
  window !! k = Some r →
  _likely_header_row r = true →
  (∀ j r', j < k → window !! j = Some r' → _likely_header_row r' = false) →
  scan_header_rows i window = (true, i + k).
Proof.
  revert i k. induction window as [|r0 rest IH]; intros i k Hk Hr Hbefore; [done|].
  destruct k as [|k]; simpl in *.
  - injection Hk as ->. rewrite Hr. f_equal. lia.
  - rewrite (Hbefore 0 r0) by (done || lia).
    rewrite (IH (S i) k); [f_equal; lia|done|done|].
    intros j r' Hj Hr'. apply (Hbefore (S j) r'); [lia|done].
Qed.

Lemma detect_header_auto raw_rows :
  detect_header "auto" raw_rows = scan_header_rows 0 (take 10 raw_rows).
Proof.
  unfold detect_header.
  change (String.eqb "auto" "auto") with true. cbv iota.
  apply (f_equal (scan_header_rows 0)), firstn_all2.
  apply Nat.min_glb; [|done]. rewrite length_take. apply Nat.le_min_l.
Qed.

(** C7: a row is taken for the business header exactly when at least two
    of the three sentinel labels are among its distinct non-empty trimmed
    cells; when no row of the window (the first ten rows) qualifies, the
    scan ends with [has_business_headers = False] and
    [header_row_idx = 0] (the legacy convention), and it is total: the
    first qualifying row, if any, is the header row. *)
Theorem header_row_classification :
  size SENTINELS = 3
  ∧ (∀ row : list string,
       _likely_header_row row = true
       ↔ 2 ≤ size (SENTINELS ∩ list_to_set
                     (List.filter (λ v, negb (String.eqb v ""))
                        (PyStr.strip <$> row))))
  ∧ (∀ row : list string,
       _likely_header_row row = true
       ↔ ∃ a b, a ≠ b ∧ a ∈ SENTINELS ∧ b ∈ SENTINELS
                ∧ a ∈ PyStr.strip <$> row ∧ b ∈ PyStr.strip <$> row)
  ∧ (∀ raw_rows : list (list string),
       Forall (λ r, _likely_header_row r = false) (take 10 raw_rows) →
       detect_header "auto" raw_rows = (false, 0))
  ∧ (∀ (raw_rows : list (list string)) (i : nat) (r : list string),
       i < 10 → raw_rows !! i = Some r → _likely_header_row r = true →
       (∀ j r', j < i → raw_rows !! j = Some r' → _likely_header_row r' = false) →
       detect_header "auto" raw_rows = (true, i)).
Proof.
  split; [by vm_compute|].
  split.
  { intros row. unfold _likely_header_row.
    by rewrite bool_decide_eq_true, sentinel_hits_ignore_blank. }
  split.
  { intros row. unfold _likely_header_row.
    rewrite bool_decide_eq_true, two_elements.
    split.
    - intros (a & b & Hab & Ha & Hb). exists a, b.
      rewrite elem_of_intersection, elem_of_list_to_set in Ha, Hb. tauto.
    - intros (a & b & Hab & Ha & Hb & Ha' & Hb'). exists a, b.
      rewrite !elem_of_intersection, !elem_of_list_to_set. tauto. }
  split.
  { intros raw_rows H. rewrite detect_header_auto.
    by apply scan_header_rows_none. }
  intros raw_rows i r Hi Hr Hlikely Hbefore.
  rewrite detect_header_auto.
  apply (scan_header_rows_first 0 _ i r); [|done|].
  - by rewrite lookup_take_lt.
  - intros j r' Hj Hr'. apply (Hbefore j r'); [done|].
    rewrite lookup_take_lt in Hr' by lia. done.
Qed.

Lemma header_row_classification_witness :
  detect_header "auto" [["a"; "b"]; ["Resource or Rec/Offer"; " L3 Org "; "x"]]
  = (true, 1).
Proof.
  apply (proj2 (proj2 (proj2 (proj2 header_row_classification)))
           [["a"; "b"]; ["Resource or Rec/Offer"; " L3 Org "; "x"]] 1
           ["Resource or Rec/Offer"; " L3 Org "; "x"]).
  - lia.
  - reflexivity.
  - by vm_compute.
  - intros j r' Hj Hr'. destruct j as [|j]; [|lia].
    injection Hr' as <-. by vm_compute.
Defined.

Example one_sentinel_is_not_enough :
  _likely_header_row ["L3 Org"; "L3 Org"; "Type"; ""] = false.
Proof. by vm_compute. Qed.

(** ** Embedded header reader *)

(** The first test of [l.37] follows from the second. *)
Lemma combined_header_spec tech b :
  combined_header tech b
  = if negb (String.eqb (PyStr.strip b) "")
       && negb (String.eqb (PyStr.strip b) "nan")
    then PyStr.strip b else tech.
Proof.
  unfold combined_header.
  destruct (String.eqb_spec b "") as [->|_]; [done|done].
Qed.

(** C10: whenever the frame has a data row, the reader removes the first
    one, whatever it holds (sentinel labels or not), so one row fewer is
    returned, and each column takes the trimmed cell of that row as its
    name when that is neither empty nor ["nan"], and keeps its technical
    name otherwise. *)
Theorem embedded_header_always_absorbed
    (df : Frame string) (first : list string) (rest : list (list string)) :
  rows df = first :: rest →
  rows (read_with_embedded_header df) = rest
  ∧ S (len (read_with_embedded_header df)) = len df
  ∧ (length first = length (columns df) →
     length (columns (read_with_embedded_header df)) = length (columns df))
  ∧ ∀ (i : nat) (tech b : string),
      columns df !! i = Some tech → first !! i = Some b →
      columns (read_with_embedded_header df) !! i
      = Some (if negb (String.eqb (PyStr.strip b) "")
                 && negb (String.eqb (PyStr.strip b) "nan")
              then PyStr.strip b else tech).
Proof.
  intros Hrows. unfold read_with_embedded_header, len. rewrite Hrows. simpl.
  repeat split; try done.
  - intros Hlen. rewrite length_zip_with. lia.
  - intros i tech b Htech Hb.
    rewrite lookup_zip_with, Htech. simpl. rewrite Hb. simpl.
    by rewrite combined_header_spec.
Qed.

Lemma embedded_header_always_absorbed_witness :
  _likely_header_row ["1: Req - Ann"; " nan "; "40"] = false
  ∧ rows (read_with_embedded_header unlabelled_csv) = [["2: Req - Bo"; "Build"; "60"]]
  ∧ S (len (read_with_embedded_header unlabelled_csv)) = 2
  ∧ columns (read_with_embedded_header unlabelled_csv) !! 1 = Some "Workstream 1"
  ∧ columns (read_with_embedded_header unlabelled_csv) !! 2 = Some "40".
Proof.
  split; [by vm_compute|].
  destruct (embedded_header_always_absorbed unlabelled_csv
              ["1: Req - Ann"; " nan "; "40"] [["2: Req - Bo"; "Build"; "60"]]
              eq_refl) as (Hrows & Hlen & _ & Hcols).
  split; [exact Hrows|]. split; [exact Hlen|].
  split.
  - exact (Hcols 1 "Workstream 1" " nan " eq_refl eq_refl).
  - exact (Hcols 2 "% 1" "40" eq_refl eq_refl).
Defined.

Example header_only_frame_is_kept cols :
  read_with_embedded_header (mkFrame cols []) = mkFrame cols [].
Proof. reflexivity. Qed.

(** ** Hierarchy reconstructor *)

Lemma get_loc_Some name cols j :
  get_loc name cols = Some j →
  cols !! j = Some name ∧ ∀ i c, i < j → cols !! i = Some c → c ≠ name.
Proof.
  unfold get_loc. destruct (list_find _ cols) as [[i c]|] eqn:E; [|done].
  simpl. intros [= ->]. apply list_find_Some in E as (Hc & -> & Hbefore).
  split; [done|]. intros i c' Hi Hc'. by apply (Hbefore i).
Qed.

Lemma get_loc_elem name cols : name ∈ cols → is_Some (get_loc name cols).
Proof.
  intros H. unfold get_loc.
  destruct (list_find_elem_of (λ c, c = name) cols name H eq_refl) as [[i c] ->].
  by eexists.
Qed.

Lemma get_loc_None name cols : name ∉ cols → get_loc name cols = None.
Proof.
  intros H. unfold get_loc.
  destruct (list_find _ cols) as [[i c]|] eqn:E; [|done].
  apply list_find_Some in E as (Hc & -> & _).
  exfalso. apply H. by eapply list_elem_of_lookup_2.
Qed.

Lemma truthy_not_empty c : truthy c = true → c ≠ VStr "" ∧ c ≠ VNone.
Proof. destruct c as [s| | |]; simpl; [|done..]. by destruct s. Qed.

Lemma reconstruct_rows_length j cur rs :
  length (reconstruct_rows j cur rs) = length rs.
Proof.
  revert cur. induction rs as [|r rs IH]; intros cur; simpl; [done|].
  repeat case_match; simpl; by rewrite IH.
Qed.

Lemma reconstruct_rows_row_length j cur rs n :
  Forall (λ r, length r = n) rs →
  Forall (λ r : list cell, length r = n) (reconstruct_rows j cur rs).
Proof.
  intros H. revert cur. induction H as [|r rs Hr _ IH]; intros cur; simpl; [done|].
  repeat case_match; constructor; try apply IH; by rewrite length_insert.
Qed.

Lemma reconstruct_rows_truthy j cur rs :
  Forall (λ r : list cell, j < length r) rs →
  Forall (λ c, truthy c = true)
    ((λ r, default VNone (r !! j)) <$> reconstruct_rows j cur rs).
Proof.
  intros H. revert cur. induction H as [|r rs Hr _ IH]; intros cur; simpl; [done|].
  destruct (truthy (default VNone (r !! j)) && _) eqn:E1; simpl.
  - constructor; [|apply IH]. by rewrite list_lookup_insert_eq.
  - destruct (truthy cur) eqn:E2; simpl; (constructor; [|apply IH]);
      by rewrite list_lookup_insert_eq.
Qed.

Lemma reconstruct_supervisors_truthy df :
  well_formed df → "supervisor" ∈ columns df →
  Forall (λ c, truthy c = true) (getitem "supervisor" (reconstruct_supervisors df)).
Proof.
  intros Hwf Hin.
  destruct (get_loc_elem _ _ Hin) as [j Hj].
  unfold reconstruct_supervisors, getitem, iloc_col.
  rewrite Hj. simpl. rewrite Hj.
  apply get_loc_Some in Hj as [Hj _]. apply lookup_lt_Some in Hj.
  apply reconstruct_rows_truthy.
  eapply Forall_impl; [exact Hwf|]. simpl. intros r ->. done.
Qed.

Example rows_before_first_supervisor :
  getitem "supervisor" (reconstruct_supervisors late_supervisor)
  = [VStr "Unassigned"; VStr "Self"; VStr "carol@co"].
Proof. reflexivity. Qed.

(** ** Workstream pair discovery *)

Lemma percents_first a s r : Re.percents (String a s) = Some r → a = "%"%char.
Proof.
  unfold Re.percents.
  destruct a as [[] [] [] [] [] [] [] []]; first [done | discriminate].
Qed.

(** No name matches both patterns, so the [elif] of [l.57] loses nothing. *)
Lemma patterns_disjoint c k :
  PCT_NAME_RE c = Some k → WS_NAME_RE c = None.
Proof.
  unfold PCT_NAME_RE, WS_NAME_RE.
  destruct (PyStr.lstrip c) as [|a s]; [done|].
  destruct (Re.percents (String a s)) as [r|] eqn:E; [|done].
  apply percents_first in E as ->. done.
Qed.

Lemma last_match_cons re k c cols :
  last_match re k (c :: cols)
  = match last_match re k cols with
    | Some x => Some x
    | None => if bool_decide (re c = Some k) then Some c else None
    end.
Proof.
  unfold last_match. rewrite filter_cons.
  case_bool_decide as H; destruct (decide (re c = Some k)); try done.
  - rewrite last_cons. by destruct (last _).
  - by destruct (last _).
Qed.

Lemma last_match_is_Some re k cols :
  is_Some (last_match re k cols) ↔ ∃ c, c ∈ cols ∧ re c = Some k.
Proof.
  unfold last_match. rewrite last_is_Some. split.
  - intros H. destruct (filter _ cols) as [|c l] eqn:E; [done|].
    exists c. apply and_comm, (list_elem_of_filter (λ c, re c = Some k)).
    rewrite E. by left.
  - intros (c & Hc & Hk) E.
    assert (c ∈ filter (λ c, re c = Some k) cols) as Hin
      by (by apply list_elem_of_filter).
    rewrite E in Hin. by apply not_elem_of_nil in Hin.
Qed.

Lemma last_match_Some re k cols c :
  last_match re k cols = Some c → c ∈ cols ∧ re c = Some k.
Proof.
  unfold last_match. intros H. apply last_Some_elem_of in H.
  apply list_elem_of_filter in H. tauto.
Qed.

Lemma scan_columns_ws acc cols k :
  (foldl scan_column acc cols).1 !! k
  = match last_match WS_NAME_RE k cols with
    | Some c => Some c
    | None => acc.1 !! k
    end.
Proof.
  revert acc. induction cols as [|c cols IH]; intros acc; [done|].
  simpl. rewrite IH, last_match_cons.
  destruct (last_match WS_NAME_RE k cols); [done|].
  unfold scan_column.
  destruct (WS_NAME_RE c) as [k'|] eqn:E; simpl.
  - case_bool_decide as H.
    + injection H as ->. by rewrite lookup_insert_eq.
    + rewrite lookup_insert_ne; [done|congruence].
  - by destruct (PCT_NAME_RE c).
Qed.

Lemma scan_columns_pct acc cols k :
  (foldl scan_column acc cols).2 !! k
  = match last_match PCT_NAME_RE k cols with
    | Some c => Some c
    | None => acc.2 !! k
    end.
Proof.
  revert acc. induction cols as [|c cols IH]; intros acc; [done|].
  simpl. rewrite IH, last_match_cons.
  destruct (last_match PCT_NAME_RE k cols); [done|].
  unfold scan_column.
  destruct (PCT_NAME_RE c) as [k'|] eqn:E; simpl.
  - rewrite (patterns_disjoint _ _ E). simpl. case_bool_decide as H.
    + injection H as ->. by rewrite lookup_insert_eq.
    + rewrite lookup_insert_ne; [done|congruence].
  - by destruct (WS_NAME_RE c).
Qed.

Lemma sorted_le_nodup_lt (l : list N) :
  StronglySorted N.le l → NoDup l → StronglySorted N.lt l.
Proof.
  induction 1 as [|x l Hl IH Hx]; intros Hnd; [constructor|].
  apply NoDup_cons in Hnd as [Hnotin Hnd].
  constructor; [by apply IH|].
  apply Forall_forall. intros y Hy.
  apply N.le_neq. split.
  - rewrite Forall_forall in Hx. by apply Hx.
  - intros ->. by apply Hnotin.
Qed.

Lemma common_indices_sorted ws pct : StronglySorted N.lt (common_indices ws pct).
Proof.
  unfold common_indices. apply sorted_le_nodup_lt.
  - apply StronglySorted_merge_sort; apply _.
  - rewrite merge_sort_Permutation. apply NoDup_elements.
Qed.

Lemma common_indices_elem ws pct k :
  k ∈ common_indices ws pct ↔ is_Some (ws !! k) ∧ is_Some (pct !! k).
Proof.
  unfold common_indices.
  rewrite merge_sort_Permutation, elem_of_elements, elem_of_intersection.
  by rewrite !elem_of_dom.
Qed.

(** C6: the pairs returned for any list of column names are indexed by
    exactly the integers that some "Workstream N" name and some "% N"
    name both carry, in strictly ascending order of the index, each pair
    holding the entries of the two dictionaries (the last matching column
    of each kind); indices present on one side only give no pair.  On
    [Workstream 1; % 1; Workstream 3; %3; Notes] the result is
    [(Workstream 1, % 1); (Workstream 3, %3)]. *)
Theorem find_workstream_pairs_spec :
  (∀ cols : list string, ∃ ks : list N,
      StronglySorted N.lt ks
      ∧ (∀ k, k ∈ ks ↔ (∃ c, c ∈ cols ∧ WS_NAME_RE c = Some k)
                       ∧ (∃ c, c ∈ cols ∧ PCT_NAME_RE c = Some k))
      ∧ Forall2 (λ k p, last_match WS_NAME_RE k cols = Some p.1
                        ∧ last_match PCT_NAME_RE k cols = Some p.2)
          ks (find_workstream_pairs cols))
  ∧ find_workstream_pairs ["Workstream 1"; "% 1"; "Workstream 3"; "%3"; "Notes"]
    = [("Workstream 1", "% 1"); ("Workstream 3", "%3")]
  ∧ find_workstream_pairs ["Workstream 1"; "% 1"; "Workstream 2"; "% 3"] 
    = [("Workstream 1", "% 1")].
Proof.
  split; [|split; by vm_compute].
  intros cols. unfold find_workstream_pairs.
  destruct (scan_columns cols) as [ws pct] eqn:E.
  assert (Hws : ∀ k, ws !! k = last_match WS_NAME_RE k cols).
  { intros k. change ws with (ws, pct).1. rewrite <- E. unfold scan_columns.
    rewrite scan_columns_ws. simpl. rewrite lookup_empty. by destruct (last_match _ _ _). }
  assert (Hpct : ∀ k, pct !! k = last_match PCT_NAME_RE k cols).
  { intros k. change pct with (ws, pct).2. rewrite <- E. unfold scan_columns.
    rewrite scan_columns_pct. simpl. rewrite lookup_empty. by destruct (last_match _ _ _). }
  exists (common_indices ws pct).
  split; [apply common_indices_sorted|]. split.
  - intros k. by rewrite common_indices_elem, Hws, Hpct, !last_match_is_Some.
  - apply Forall2_fmap_r, Forall_Forall2_diag, Forall_forall.
    intros k Hk. apply common_indices_elem in Hk as [[w Hw] [p Hp]]. simpl.
    rewrite (lookup_total_correct _ _ _ Hw), (lookup_total_correct _ _ _ Hp).
    by rewrite <- Hws, <- Hpct.
Qed.

Lemma find_workstream_pairs_spec_witness :
  ∃ ks : list N,
    StronglySorted N.lt ks
    ∧ Forall2 (λ k p, last_match WS_NAME_RE k ["Workstream 2"; "% 2"; "%1"] = Some p.1
                      ∧ last_match PCT_NAME_RE k ["Workstream 2"; "% 2"; "%1"] = Some p.2)
        ks (find_workstream_pairs ["Workstream 2"; "% 2"; "%1"]).
Proof.
  destruct (proj1 find_workstream_pairs_spec ["Workstream 2"; "% 2"; "%1"])
    as (ks & Hsorted & _ & Hpairs).
  exists ks. split; [exact Hsorted|exact Hpairs].
Defined.

Example find_workstream_pairs_spacing_and_case :
  find_workstream_pairs ["  workSTREAM10 "; "%% 10"; "Workstream 2"; "% 02"; "Workstream"; "%"]
  = [("Workstream 2", "% 02"); ("  workSTREAM10 ", "%% 10")].
Proof. by vm_compute. Qed.

Example find_workstream_pairs_repeated_index :
  find_workstream_pairs ["Workstream 1"; "% 1"; "Workstream 01"; "%1"]
  = [("Workstream 01", "%1")].
Proof. by vm_compute. Qed.

(** ** Frames: reading a column after an assignment *)

Section FrameFacts.

Context {A : Type}.
Implicit Types (df : Frame A) (vals : list A) (name : string).

Lemma columns_setitem name vals df :
  columns (setitem name vals df)
  = if bool_decide (name ∈ columns df) then columns df
    else (columns df ++ [name])%list.
Proof. unfold setitem. by case_bool_decide. Qed.

Lemma len_setitem name vals df :
  length vals = len df → len (setitem name vals df) = len df.
Proof.
  unfold setitem, len. intros H.
  case_bool_decide; simpl; rewrite length_zip_with; lia.
Qed.

Lemma well_formed_setitem name vals df :
  well_formed df → well_formed (setitem name vals df).
Proof.
  unfold well_formed, setitem. intros H.
  case_bool_decide; simpl.
  - revert vals. induction H as [|r rs Hr _ IH]; intros [|v vals]; simpl;
      try constructor; [|apply IH].
    rewrite length_zip_with. lia.
  - revert vals. induction H as [|r rs Hr _ IH]; intros [|v vals]; simpl;
      try constructor; [|apply IH].
    rewrite !length_app. simpl. lia.
Qed.

Lemma get_loc_app_other name m cols :
  name ≠ m → get_loc name (cols ++ [m])%list = get_loc name cols.
Proof.
  intros Hne. unfold get_loc. induction cols as [|c cols IH]; simpl.
  - by rewrite decide_False by congruence.
  - destruct (decide (c = name)); [done|].
    rewrite <- !option_fmap_compose.
    revert IH. by destruct (list_find _ (cols ++ [m])%list), (list_find _ cols);
      simpl; intros [= ->] || intros [=] || intros _.
Qed.

Lemma get_loc_setitem_ne name m vals df :
  name ≠ m →
  get_loc name (columns (setitem m vals df)) = get_loc name (columns df).
Proof.
  intros Hne. rewrite columns_setitem.
  case_bool_decide; [done|]. by apply get_loc_app_other.
Qed.

Lemma get_loc_fresh name cols :
  name ∉ cols → get_loc name (cols ++ [name])%list = Some (length cols).
Proof.
  intros Hnotin. unfold get_loc. induction cols as [|c cols IH]; simpl.
  - by rewrite decide_True.
  - apply not_elem_of_cons in Hnotin as [Hne Hnotin].
    rewrite decide_False by congruence.
    rewrite <- option_fmap_compose.
    specialize (IH Hnotin). revert IH.
    destruct (list_find _ (cols ++ [name])%list) as [[i x]|]; simpl; [|done].
    by intros [= ->].
Qed.

(** Reading position [i] of every row the assignment produced. *)
Lemma iloc_col_setitem_other d i c m vals df :
  well_formed df → length vals = len df →
  columns df !! i = Some c → c ≠ m →
  iloc_col d i (setitem m vals df) = iloc_col d i df.
Proof.
  unfold well_formed, len, iloc_col, setitem. intros Hwf Hlen Hc Hne.
  assert (Hi : i < length (columns df)) by (by eapply lookup_lt_Some).
  case_bool_decide; simpl.
  - revert vals Hlen. induction Hwf as [|r rs Hr _ IH]; intros [|v vals] Hlen;
      simpl in *; try done.
    f_equal; [|apply IH; lia].
    rewrite lookup_zip_with, Hc. simpl.
    destruct (r !! i) as [x|] eqn:Ex; simpl; [|done].
    by rewrite bool_decide_eq_false_2.
  - revert vals Hlen. induction Hwf as [|r rs Hr _ IH]; intros [|v vals] Hlen;
      simpl in *; try done.
    f_equal; [|apply IH; lia].
    rewrite lookup_app_l by lia. done.
Qed.

End FrameFacts.

Lemma getitem_setitem_eq name vals (df : Frame cell) :
  well_formed df → length vals = len df →
  getitem name (setitem name vals df) = vals.
Proof.
  unfold getitem. intros Hwf Hlen. rewrite columns_setitem.
  unfold well_formed, len, iloc_col, setitem in *.
  case_bool_decide as Hin; simpl.
  - destruct (get_loc_elem _ _ Hin) as [j Hj]. rewrite Hj.
    apply get_loc_Some in Hj as [Hj _].
    assert (Hlt : j < length (columns df)) by (by eapply lookup_lt_Some).
    revert vals Hlen. induction Hwf as [|r rs Hr _ IH]; intros [|v vals] Hlen;
      simpl in *; try done.
    f_equal; [|apply IH; lia].
    rewrite lookup_zip_with, Hj. simpl.
    destruct (lookup_lt_is_Some_2 r j) as [x ->]; [lia|]. simpl.
    by rewrite bool_decide_eq_true_2.
  - rewrite get_loc_fresh by done.
    revert vals Hlen. induction Hwf as [|r rs Hr _ IH]; intros [|v vals] Hlen;
      simpl in *; try done.
    f_equal; [|apply IH; lia].
    rewrite <- Hr. by rewrite list_lookup_middle.
Qed.

Lemma getitem_setitem_ne name m vals (df : Frame cell) :
  well_formed df → length vals = len df → name ≠ m →
  getitem name (setitem m vals df) = getitem name df.
Proof.
  intros Hwf Hlen Hne. unfold getitem.
  rewrite get_loc_setitem_ne by done.
  destruct (get_loc name (columns df)) as [j|] eqn:Hj.
  - apply get_loc_Some in Hj as [Hj _].
    by apply (iloc_col_setitem_other _ _ name).
  - by rewrite len_setitem.
Qed.

Lemma length_getitem name (df : Frame cell) : length (getitem name df) = len df.
Proof.
  unfold getitem, iloc_col, len.
  destruct (get_loc name (columns df)); [by rewrite length_fmap|by rewrite length_replicate].
Qed.

(** ** Completion detector *)

Lemma get_loc_first name cols i :
  cols !! i = Some name →
  (∀ j, j < i → cols !! j ≠ Some name) →
  get_loc name cols = Some i.
Proof.
  intros Hi Hfirst. unfold get_loc.
  assert (list_find (λ c, c = name) cols = Some (i, name)) as ->; [|done].
  apply list_find_Some. split; [done|]. split; [done|].
  intros j c Hc Hj ->. by apply (Hfirst j).
Qed.

Lemma setitem_scalar_facts {A} name (v : A) (df : Frame A) :
  well_formed df →
  well_formed (setitem_scalar name v df)
  ∧ len (setitem_scalar name v df) = len df.
Proof.
  intros Hwf. unfold setitem_scalar. split.
  - by apply well_formed_setitem.
  - apply len_setitem. by rewrite length_replicate.
Qed.

(** C8: the detector reads the first column named
    "Workstream Status Active"; each row's [workstream1_completed] is
    the test of that row's cell, which for a text cell holds exactly when
    the trimmed, lower-cased text is one of y, yes, true, 1, active; with
    no such column the flag is [False] on every row.  The function is
    total: no case raises. *)
Theorem completion_detector
    (float_to_str : spec_float → string) (df : Frame cell) :
  well_formed df →
  (∀ i : nat,
     columns df !! i = Some "Workstream Status Active" →
     (∀ j, j < i → columns df !! j ≠ Some "Workstream Status Active") →
     getitem "workstream1_completed" (detect_workstream1_completion float_to_str df)
     = (λ c, VBool (status_is_affirmative float_to_str c)) <$> iloc_col VNone i df)
  ∧ ("Workstream Status Active" ∉ columns df →
     getitem "workstream1_completed" (detect_workstream1_completion float_to_str df)
     = replicate (len df) (VBool false))
  ∧ (∀ s : string,
       status_is_affirmative float_to_str (VStr s) = true
       ↔ PyStr.lower (PyStr.strip s) ∈ ["y"; "yes"; "true"; "1"; "active"])
  ∧ len (detect_workstream1_completion float_to_str df) = len df.
Proof.
  intros Hwf.
  destruct (setitem_scalar_facts "workstream1_completed" (VBool false) df Hwf)
    as [Hwf1 Hlen1].
  assert (Hloc : get_loc "Workstream Status Active"
                   (columns (setitem_scalar "workstream1_completed" (VBool false) df))
                 = get_loc "Workstream Status Active" (columns df)).
  { unfold setitem_scalar. by apply get_loc_setitem_ne. }
  unfold detect_workstream1_completion. rewrite Hloc.
  split; [|split; [|split]].
  - intros i Hi Hfirst. rewrite (get_loc_first _ _ _ Hi Hfirst).
    rewrite getitem_setitem_eq; [|done|].
    + f_equal. unfold setitem_scalar.
      apply (iloc_col_setitem_other _ _ "Workstream Status Active");
        [done|by rewrite length_replicate|done|done].
    + rewrite length_fmap. unfold iloc_col. by rewrite length_fmap.
  - intros Hnotin. rewrite (get_loc_None _ _ Hnotin).
    unfold setitem_scalar. rewrite getitem_setitem_eq; [done|done|].
    by rewrite length_replicate.
  - intros s. unfold status_is_affirmative, affirmative. simpl.
    apply bool_decide_eq_true.
  - destruct (get_loc _ (columns df)); [|done].
    rewrite len_setitem; [done|].
    rewrite length_fmap. unfold iloc_col. by rewrite length_fmap.
Qed.

Lemma completion_detector_witness :
  getitem "workstream1_completed"
    (detect_workstream1_completion no_float_text status_example)
  = [VBool true; VBool false; VBool true; VBool false].
Proof.
  assert (Hwf : well_formed status_example) by (repeat constructor).
  destruct (completion_detector no_float_text status_example Hwf) as (H & _).
  rewrite (H 1 eq_refl).
  - reflexivity.
  - intros j Hj. destruct j as [|j]; [discriminate|lia].
Defined.

Example no_status_column_all_false :
  getitem "workstream1_completed"
    (detect_workstream1_completion no_float_text late_supervisor)
  = [VBool false; VBool false; VBool false].
Proof. reflexivity. Qed.

(** ** Zero data rows *)

Lemma rename_step_no_rows df kv : rows df = [] → rows (rename_step df kv) = [].
Proof.
  intros H. unfold rename_step, rename, setitem_scalar, setitem, len.
  rewrite H. by repeat case_bool_decide.
Qed.

Lemma rename_columns_no_rows df : rows df = [] → rows (rename_columns df) = [].
Proof.
  unfold rename_columns. generalize rename_map. intros l.
  revert df. induction l as [|kv l IH]; intros df H; [done|].
  simpl. apply IH. by apply rename_step_no_rows.
Qed.

Lemma getitem_no_rows name (df : Frame cell) : rows df = [] → getitem name df = [].
Proof.
  intros H. unfold getitem, iloc_col, len. rewrite H.
  by destruct (get_loc _ _).
Qed.

Lemma parse_resource_fields_no_rows df :
  rows df = [] →
  parse_resource_fields df = Raise (ValueError "Columns must be same length as key").
Proof.
  intros H. unfold parse_resource_fields. by rewrite getitem_no_rows.
Qed.

(** C9 fails on the code: whatever the column names, the numeric reader
    and the summarizer, a frame without data rows, and likewise a frame
    whose only row is the one absorbed as business header, makes
    [load_latest_csv] raise at the assignment of the three parsed columns
    ([l.133]), and [process_pet_csv] raises with it. *)
Theorem load_latest_csv_raises_without_rows
    (str_to_float : string → spec_float) (float_to_str : spec_float → string)
    (create_hierarchical_summary : Frame cell → result (Frame cell))
    (cols : list string) :
  load_latest_csv str_to_float float_to_str (mkFrame cols [])
    = Raise (ValueError "Columns must be same length as key")
  ∧ process_pet_csv str_to_float float_to_str create_hierarchical_summary
      (mkFrame cols [])
    = Raise (ValueError "Columns must be same length as key")
  ∧ ∀ only_row : list string,
      load_latest_csv str_to_float float_to_str (mkFrame cols [only_row])
        = Raise (ValueError "Columns must be same length as key")
      ∧ process_pet_csv str_to_float float_to_str create_hierarchical_summary
          (mkFrame cols [only_row])
        = Raise (ValueError "Columns must be same length as key").
Proof.
  assert (H : ∀ csv, rows (read_with_embedded_header csv) = [] →
            load_latest_csv str_to_float float_to_str csv
            = Raise (ValueError "Columns must be same length as key")).
  { intros csv Hcsv. unfold load_latest_csv.
    rewrite parse_resource_fields_no_rows; [done|].
    apply rename_columns_no_rows. unfold text_frame. simpl. by rewrite Hcsv. }
  split; [by apply H|]. split.
  - unfold process_pet_csv. by rewrite H.
  - intros only_row. split; [by apply H|].
    unfold process_pet_csv. by rewrite H.
Qed.

(** ** Allocation aggregator: the scale decision *)

Lemma filter_Permutation_bool {A} (f : A → bool) (l l' : list A) :
  l ≡ₚ l' → List.filter f l ≡ₚ List.filter f l'.
Proof.
  induction 1 as [|x l l' _ IH|x y l|l1 l2 l3 _ IH1 _ IH2]; simpl.
  - done.
  - destruct (f x); [by constructor|done].
  - destruct (f x), (f y); try done. apply perm_swap.
  - by etrans.
Qed.

Lemma mean_Permutation (bs bs' : list bool) : bs ≡ₚ bs' → F64.mean bs = F64.mean bs'.
Proof.
  intros H. unfold F64.mean, F64.count_true.
  rewrite (Permutation_length H), (Permutation_length (filter_Permutation_bool id _ _ H)).
  destruct bs as [|b bs], bs' as [|b' bs']; try done;
    first [by apply Permutation_nil_cons in H
          |symmetry in H; by apply Permutation_nil_cons in H].
Qed.

Lemma is_fractional_Permutation (col col' : list spec_float) :
  col ≡ₚ col' → is_fractional col = is_fractional col'.
Proof.
  intros H. unfold is_fractional. f_equal.
  apply mean_Permutation, fmap_Permutation.
  by apply filter_Permutation_bool.
Qed.

Lemma getitem_Permutation name (df df' : Frame cell) :
  columns df = columns df' → rows df ≡ₚ rows df' →
  getitem name df ≡ₚ getitem name df'.
Proof.
  intros Hc Hr. unfold getitem, iloc_col, len. rewrite <- Hc.
  destruct (get_loc name (columns df)).
  - by apply fmap_Permutation.
  - by rewrite (Permutation_length Hr).
Qed.

Lemma count_true_fmap {A} (f : A → bool) (l : list A) :
  F64.count_true (f <$> l) = length (List.filter f l).
Proof.
  unfold F64.count_true. induction l as [|x l IH]; [done|].
  rewrite fmap_cons. cbn [List.filter]. unfold id at 1.
  destruct (f x); cbn [length]; by rewrite IH.
Qed.

Lemma is_fractional_counts (col : list spec_float) :
  is_fractional col
  = match F64.dropna col with
    | [] => false
    | kept =>
        F64.gt
          (F64.div (F64.of_Z (Z.of_nat (length (List.filter F64.between_0_1 kept))))
                   (F64.of_Z (Z.of_nat (length kept))))
          F64.threshold
    end.
Proof.
  unfold is_fractional, F64.mean.
  rewrite count_true_fmap, length_fmap.
  by destruct (F64.dropna col).
Qed.

(** One column holding 0.5 and 0.3 for two resources gives them 50.0
    and 30.0. *)
Example one_fraction_column_totals :
  getitem "computed_total_pct"
    (compute_total_allocation Decimal.to_float one_fraction_column)
  = [VNum (F64.of_Z 50); VNum (F64.of_Z 30)].
Proof. by vm_compute. Qed.

(** The threshold is strict: 17 values out of 20 in [0, 1] (exactly 85%)
    leave the column as it is, 18 out of 20 scale it. *)
Example is_fractional_at_threshold :
  is_fractional (replicate 17 F64.one ++ replicate 3 F64.hundred)%list = false
  ∧ is_fractional (replicate 18 F64.one ++ replicate 2 F64.hundred)%list = true
  ∧ is_fractional [] = false
  ∧ is_fractional [F64.nan; F64.nan] = false.
Proof. repeat split; by vm_compute. Qed.

(** On columns of up to 100 non-missing values the float comparison is
    the exact one: more than 85% of the values in range. *)
Example is_fractional_threshold_exact : threshold_exact_upto 100 = true.
Proof. by vm_compute. Qed.

(** ** Allocation aggregator: the scale rule *)

Lemma dropna_non_missing (col : list spec_float) :
  F64.dropna col = ScaleRule.non_missing col.
Proof.
  unfold F64.dropna, ScaleRule.non_missing.
  induction col as [|x col IH]; [done|].
  rewrite filter_cons. simpl. rewrite IH. by destruct x.
Qed.

Lemma digits2_pos_bounds (m : positive) :
  (2 ^ (Z.pos (digits2_pos m) - 1) ≤ Z.pos m < 2 ^ Z.pos (digits2_pos m))%Z.
Proof.
  induction m as [m IH|m IH|]; simpl digits2_pos.
  - rewrite Pos2Z.inj_succ, Z.pow_succ_r by lia.
    replace (Z.succ (Z.pos (digits2_pos m)) - 1)%Z
      with (Z.succ (Z.pos (digits2_pos m) - 1))%Z by lia.
    rewrite Z.pow_succ_r by lia. lia.
  - rewrite Pos2Z.inj_succ, Z.pow_succ_r by lia.
    replace (Z.succ (Z.pos (digits2_pos m)) - 1)%Z
      with (Z.succ (Z.pos (digits2_pos m) - 1))%Z by lia.
    rewrite Z.pow_succ_r by lia. lia.
  - simpl. lia.
Qed.

(** What a canonical mantissa says about the size of a finite float64. *)
Lemma float64_mantissa (m : positive) (e : Z) :
  bounded F64.prec F64.emax m e = true →
  (Z.pos m < 2 ^ 53 ∧ (-1074 < e → 2 ^ 52 ≤ Z.pos m))%Z.
Proof.
  unfold bounded, canonical_mantissa, fexp, emin, F64.prec, F64.emax.
  intros [Hc _]%andb_prop. apply Z.eqb_eq in Hc.
  pose proof (digits2_pos_bounds m) as [Hlo Hhi].
  revert Hc Hlo Hhi. generalize (Z.pos (digits2_pos m)). intros d Hc Hlo Hhi.
  assert (Hd : (d ≤ 53)%Z) by lia.
  split.
  - eapply Z.lt_le_trans; [exact Hhi|]. apply Z.pow_le_mono_r; lia.
  - intros He. assert (d = 53%Z) as -> by lia. exact Hlo.
Qed.

Lemma in_unit_interval_negative (m : positive) (e : Z) :
  ScaleRule.in_unit_interval (S754_finite true m e) = false.
Proof.
  unfold ScaleRule.in_unit_interval, ScaleRule.value.
  apply andb_false_intro1.
  destruct (0 <=? e)%Z eqn:He; unfold Qle_bool; cbn [Qnum Qden inject_Z];
    apply Z.leb_gt.
  - apply Z.leb_le in He.
    assert (0 < 2 ^ e)%Z by (by apply Z.pow_pos_nonneg). nia.
  - lia.
Qed.

Lemma in_unit_interval_positive (m : positive) (e : Z) :
  ScaleRule.in_unit_interval (S754_finite false m e)
  = if (0 <=? e)%Z then (Z.pos m * 2 ^ e <=? 1)%Z
    else (Z.pos m <=? 2 ^ (- e))%Z.
Proof.
  unfold ScaleRule.in_unit_interval, ScaleRule.value.
  destruct (0 <=? e)%Z eqn:He; unfold Qle_bool; cbn [Qnum Qden inject_Z].
  - apply Z.leb_le in He.
    assert (0 < 2 ^ e)%Z by (by apply Z.pow_pos_nonneg).
    rewrite !Z.mul_1_r.
    by rewrite (proj2 (Z.leb_le 0 (Z.pos m * 2 ^ e))) by nia.
  - apply Z.leb_gt in He.
    rewrite !Z.mul_1_r, Z.mul_1_l, Z.mul_0_l, Pos2Z.inj_pow, Z2Pos.id by lia.
    by rewrite (proj2 (Z.leb_le 0 (Z.pos m))) by lia.
Qed.

Lemma le_one_positive (m : positive) (e : Z) :
  F64.le (S754_finite false m e) F64.one
  = match (e ?= -52)%Z with
    | Eq => (Z.pos m <=? 4503599627370496)%Z
    | Lt => true
    | Gt => false
    end.
Proof.
  unfold F64.le, SFleb, F64.one, SFcompare.
  destruct (e ?= -52)%Z; [|reflexivity|reflexivity].
  rewrite Pos.compare_cont_spec, Pos2Z.inj_compare.
  destruct (Z.compare_spec (Z.pos m) (Z.pos 4503599627370496)) as [E|E|E];
    cbn [Pos.switch_Eq]; symmetry;
    [apply Z.leb_le|apply Z.leb_le|apply Z.leb_gt]; lia.
Qed.

Lemma two_pow_52 : (2 ^ 52 = 4503599627370496)%Z.
Proof. reflexivity. Qed.

Lemma two_pow_53 : (2 ^ 53 = 9007199254740992)%Z.
Proof. reflexivity. Qed.

Lemma between_0_1_in_unit_interval (x : spec_float) :
  is_float64 x → F64.between_0_1 x = ScaleRule.in_unit_interval x.
Proof.
  unfold is_float64.
  destruct x as [s|s| |s m e];
    [by destruct s|by destruct s|reflexivity|].
  simpl valid_binary. intros Hb.
  destruct (float64_mantissa m e Hb) as [Hhi Hlo].
  destruct s; [by rewrite in_unit_interval_negative|].
  rewrite in_unit_interval_positive.
  unfold F64.between_0_1.
  change (F64.le F64.zero (S754_finite false m e)) with true.
  rewrite andb_true_l, le_one_positive.
  destruct (Z.compare_spec e (-52)) as [-> | Hlt | Hgt].
  - (* the exponent of 1.0 *)
    change (-52 ?= -52)%Z with Eq. change (0 <=? -52)%Z with false.
    cbv iota. change (- -52)%Z with 52%Z. by rewrite two_pow_52.
  - (* below 1.0 *)
    rewrite (proj2 (Z.leb_gt 0 e)) by lia.
    symmetry. apply Z.leb_le.
    apply Z.lt_le_incl. eapply Z.lt_le_trans; [exact Hhi|].
    apply Z.pow_le_mono_r; lia.
  - (* above 1.0 *)
    assert (H52 : (2 ^ 52 ≤ Z.pos m)%Z) by (apply Hlo; lia).
    destruct (0 <=? e)%Z eqn:He; symmetry; apply Z.leb_gt.
    + apply Z.leb_le in He.
      assert (1 ≤ 2 ^ e)%Z by (apply (Z.pow_le_mono_r 2 0 e); lia).
      rewrite two_pow_52 in H52. nia.
    + apply Z.leb_gt in He.
      eapply Z.lt_le_trans; [|exact H52].
      apply Z.pow_lt_mono_r; lia.
Qed.

Lemma filter_ext_Forall {A} (f g : A → bool) (P : A → Prop) (l : list A) :
  (∀ x, P x → f x = g x) → Forall P l → List.filter f l = List.filter g l.
Proof.
  intros Hfg. induction 1 as [|x l Hx _ IH]; [done|].
  simpl. by rewrite (Hfg x Hx), IH.
Qed.

Lemma Forall_non_missing (P : spec_float → Prop) (col : list spec_float) :
  Forall P col → Forall P (ScaleRule.non_missing col).
Proof.
  intros H. unfold ScaleRule.non_missing. apply Forall_forall. intros x Hx.
  apply list_elem_of_filter in Hx as [_ Hx]. rewrite Forall_forall in H.
  by apply H.
Qed.

(** The decision of the code from the two counts of the rule. *)
Lemma is_fractional_rule_counts (col : list spec_float) :
  Forall is_float64 col →
  is_fractional col
  = match ScaleRule.non_missing_count col with
    | 0 => false
    | S _ =>
        F64.gt
          (F64.div (F64.of_Z (Z.of_nat (ScaleRule.in_range_count col)))
                   (F64.of_Z (Z.of_nat (ScaleRule.non_missing_count col))))
          F64.threshold
    end.
Proof.
  intros Hvalid. rewrite is_fractional_counts, dropna_non_missing.
  unfold ScaleRule.non_missing_count, ScaleRule.in_range_count.
  pose proof (Forall_non_missing _ _ Hvalid) as Hkept.
  destruct (ScaleRule.non_missing col) as [|x kept]; [done|].
  by rewrite (filter_ext_Forall F64.between_0_1 ScaleRule.in_unit_interval
                is_float64 (x :: kept) between_0_1_in_unit_interval Hkept).
Qed.

(** What the check [threshold_exact_upto] establishes. *)
Lemma threshold_exact_upto_spec (bound k n : nat) :
  threshold_exact_upto bound = true →
  1 ≤ n ≤ bound → k ≤ n →
  F64.gt (F64.div (F64.of_Z (Z.of_nat k)) (F64.of_Z (Z.of_nat n))) F64.threshold
  = (17 * n <? 20 * k).
Proof.
  unfold threshold_exact_upto. intros H Hn Hk.
  rewrite forallb_forall in H. specialize (H n).
  rewrite forallb_forall in H.
  apply Bool.eqb_prop, H; apply in_seq; lia.
Qed.

(** The float comparison with 0.85 on counts up to 100. *)
Lemma threshold_exact (k n : nat) :
  1 ≤ n ≤ 100 → k ≤ n →
  F64.gt (F64.div (F64.of_Z (Z.of_nat k)) (F64.of_Z (Z.of_nat n))) F64.threshold
  = (17 * n <? 20 * k).
Proof.
  apply (threshold_exact_upto_spec 100), is_fractional_threshold_exact.
Qed.

Lemma filter_length_le {A} (f : A → bool) (l : list A) :
  length (List.filter f l) ≤ length l.
Proof. induction l as [|x l IH]; simpl; [done|]. destruct (f x); simpl; lia. Qed.

Lemma is_fractional_mostly_fractions (col : list spec_float) :
  Forall is_float64 col → ScaleRule.non_missing_count col ≤ 100 →
  is_fractional col = true ↔ ScaleRule.mostly_fractions col.
Proof.
  intros Hvalid Hbound. rewrite is_fractional_rule_counts by done.
  unfold ScaleRule.mostly_fractions.
  pose proof (filter_length_le ScaleRule.in_unit_interval (ScaleRule.non_missing col))
    as Hle.
  fold (ScaleRule.in_range_count col) in Hle.
  fold (ScaleRule.non_missing_count col) in Hle.
  destruct (ScaleRule.non_missing_count col) as [|n] eqn:En.
  - split; [done|]. intros [? _]. lia.
  - rewrite threshold_exact by lia. rewrite Nat.ltb_lt. lia.
Qed.

(** C5, as stated, fails in its example: a pair column is read down the
    rows, so a single pair column holding the fractions 0.5 and 0.3
    holds them on two rows; the column is classified as fractional and
    scaled, and the computed totals are 50.0 and 30.0, one per row:
    no row gets 80.0. *)
Lemma single_pair_column_gives_no_80 :
  find_workstream_pairs (columns one_pair_column_two_values)
    = [("Workstream 1", "% 1")]
  ∧ is_fractional
      (to_numeric Decimal.to_float (getitem "% 1" one_pair_column_two_values))
    = true
  ∧ getitem "computed_total_pct"
      (compute_total_allocation Decimal.to_float one_pair_column_two_values)
    = [VNum (F64.of_Z 50); VNum (F64.of_Z 30)]
  ∧ F64.of_Z 50 ≠ F64.of_Z 80 ∧ F64.of_Z 30 ≠ F64.of_Z 80.
Proof. repeat split; by vm_compute. Qed.

(** C5 (amended): whether a percent column is multiplied by 100 is
    decided once for the column from two counts: how many of its values
    are not missing, and how many of those lie in [0, 1]; the column is
    scaled when the float quotient of the two counts is strictly above
    0.85, which for up to 100 non-missing values is exactly when more
    than 85% of them lie in [0, 1]; a column without values is not
    scaled.  All cells of the column are then scaled together or not at
    all, and the decision is the same for every permutation of the rows.
    A resource whose two pair columns hold the fractions 0.5 and 0.3
    gets a computed total of 80.0, which is not 0.8. *)
Theorem fractional_column_scaling :
  (∀ (str_to_float : string → spec_float) (pct_col : string) (df df' : Frame cell),
     columns df = columns df' → rows df ≡ₚ rows df' →
     is_fractional (to_numeric str_to_float (getitem pct_col df))
     = is_fractional (to_numeric str_to_float (getitem pct_col df')))
  ∧ (∀ col : list spec_float,
       Forall is_float64 col →
       is_fractional col
       = match ScaleRule.non_missing_count col with
         | 0 => false
         | S _ =>
             F64.gt
               (F64.div (F64.of_Z (Z.of_nat (ScaleRule.in_range_count col)))
                        (F64.of_Z (Z.of_nat (ScaleRule.non_missing_count col))))
               F64.threshold
         end)
  ∧ (∀ col : list spec_float,
       Forall is_float64 col → ScaleRule.non_missing_count col ≤ 100 →
       is_fractional col = true ↔ ScaleRule.mostly_fractions col)
  ∧ (∀ (str_to_float : string → spec_float) (pct_col : string) (df : Frame cell)
       (i : nat) (x : spec_float),
       to_numeric str_to_float (getitem pct_col df) !! i = Some x →
       percent_column str_to_float pct_col df !! i
       = Some (if is_fractional (to_numeric str_to_float (getitem pct_col df))
               then F64.mul x F64.hundred else x))
  ∧ getitem "computed_total_pct"
      (compute_total_allocation Decimal.to_float two_fractions_example)
    = [VNum (F64.of_Z 80)]
  ∧ F64.of_Z 80 ≠ Decimal.to_float "0.8".
Proof.
  split.
  { intros stf pct df df' Hc Hr. apply is_fractional_Permutation.
    unfold to_numeric. apply fmap_Permutation. by apply getitem_Permutation. }
  split; [exact is_fractional_rule_counts|].
  split; [exact is_fractional_mostly_fractions|].
  split.
  { intros stf pct df i x Hx. unfold percent_column.
    destruct (is_fractional _); [|done].
    by rewrite list_lookup_fmap, Hx. }
  split; [by vm_compute|].
  by vm_compute.
Qed.

Lemma fractional_column_scaling_witness :
  is_fractional (to_numeric Decimal.to_float (getitem "% 1" one_fraction_column))
  = is_fractional
      (to_numeric Decimal.to_float
         (getitem "% 1"
            (mkFrame (columns one_fraction_column) (reverse (rows one_fraction_column)))))
  ∧ (is_fractional mixed_column = true ↔ ScaleRule.mostly_fractions mixed_column)
  ∧ is_fractional mixed_column = true
  ∧ percent_column Decimal.to_float "% 1" one_fraction_column !! 1
    = Some (F64.of_Z 30).
Proof.
  assert (Hvalid : Forall is_float64 mixed_column).
  { repeat constructor. }
  split; [|split; [|split]].
  - apply (proj1 fractional_column_scaling Decimal.to_float "% 1"
             one_fraction_column
             (mkFrame (columns one_fraction_column) (reverse (rows one_fraction_column)))).
    + reflexivity.
    + apply perm_swap.
  - apply (proj1 (proj2 (proj2 fractional_column_scaling)) mixed_column Hvalid).
    vm_compute. lia.
  - rewrite (proj1 (proj2 fractional_column_scaling) mixed_column Hvalid).
    by vm_compute.
  - exact (proj1 (proj2 (proj2 (proj2 fractional_column_scaling))) Decimal.to_float
             "% 1" one_fraction_column 1 (Decimal.to_float "0.3") eq_refl).
Defined.

(** ** Allocation aggregator: the official total *)

(** Without workstream pairs the official total is used where it parses,
    and 0 (the computed total) elsewhere. *)
Example official_total_used_without_pairs (float_to_str : spec_float → string) :
  ∃ df : Frame cell,
    load_latest_csv Decimal.to_float float_to_str official_total_only_csv = Ok df
    ∧ getitem "computed_total_pct" df = [VNum F64.zero; VNum F64.zero]
    ∧ getitem "total_allocation_pct" df = [VNum (F64.of_Z 75); VNum F64.zero].
Proof.
  eexists. split; [by vm_compute|].
  repeat split; by vm_compute.
Qed.

(** The notebook looks the official column up under its renamed label:
    the official value is used where it parses, the computed total
    elsewhere. *)
Example databricks_prefers_official :
  getitem "computed_total_pct" (databricks_totals Decimal.to_float official_total_renamed)
  = [VNum (F64.of_Z 50); VNum (F64.of_Z 40)]
  ∧ getitem "total_allocation_pct"
      (databricks_totals Decimal.to_float official_total_renamed)
    = [VNum (F64.of_Z 75); VNum (F64.of_Z 40)].
Proof. split; by vm_compute. Qed.

(** ** The final total and the flag columns *)

(** What one assignment guarantees, in one statement. *)
Lemma setitem_spec name vals (df : Frame cell) :
  well_formed df → length vals = len df →
  well_formed (setitem name vals df)
  ∧ len (setitem name vals df) = len df
  ∧ getitem name (setitem name vals df) = vals
  ∧ ∀ other, other ≠ name →
      getitem other (setitem name vals df) = getitem other df.
Proof.
  intros Hwf Hlen. split; [by apply well_formed_setitem|].
  split; [by apply len_setitem|].
  split; [by apply getitem_setitem_eq|].
  intros other Hne. by apply getitem_setitem_ne.
Qed.

Lemma length_to_numeric stf col : length (to_numeric stf col) = length col.
Proof. unfold to_numeric. by rewrite length_fmap. Qed.

Lemma as_float_VNum (l : list spec_float) : as_float <$> (VNum <$> l) = l.
Proof. rewrite <- list_fmap_compose. by rewrite <- (list_fmap_id l) at 2. Qed.

Lemma derive_flags_spec stf (df : Frame cell) :
  well_formed df →
  let totals :=
    F64.fillna F64.zero <$> to_numeric stf (getitem "total_allocation_pct" df) in
  let out := derive_flags stf df in
  well_formed out ∧ len out = len df
  ∧ getitem "total_allocation_pct" out = VNum <$> totals
  ∧ getitem "overallocated" out = (λ t, VBool (overallocated t)) <$> totals
  ∧ getitem "underallocated" out = (λ t, VBool (underallocated t)) <$> totals
  ∧ getitem "unassigned" out = (λ t, VBool (unassigned t)) <$> totals
  ∧ ∀ name,
      name ∉ ["total_allocation_pct"; "overallocated"; "underallocated"; "unassigned"] →
      getitem name out = getitem name df.
Proof.
  intros Hwf totals out. subst out. unfold derive_flags. fold totals.
  assert (Htot : length totals = len df).
  { subst totals. by rewrite length_fmap, length_to_numeric, length_getitem. }
  destruct (setitem_spec "total_allocation_pct" (VNum <$> totals) df Hwf)
    as (Hwf1 & Hlen1 & Hget1 & Hother1); [by rewrite length_fmap|].
  rewrite Hget1, as_float_VNum.
  set (df1 := setitem "total_allocation_pct" (VNum <$> totals) df) in *.
  destruct (setitem_spec "overallocated"
              ((λ t, VBool (overallocated t)) <$> totals) df1 Hwf1)
    as (Hwf2 & Hlen2 & Hget2 & Hother2); [rewrite length_fmap; congruence|].
  set (df2 := setitem "overallocated" _ df1) in *.
  destruct (setitem_spec "underallocated"
              ((λ t, VBool (underallocated t)) <$> totals) df2 Hwf2)
    as (Hwf3 & Hlen3 & Hget3 & Hother3); [rewrite length_fmap; congruence|].
  set (df3 := setitem "underallocated" _ df2) in *.
  destruct (setitem_spec "unassigned"
              ((λ t, VBool (unassigned t)) <$> totals) df3 Hwf3)
    as (Hwf4 & Hlen4 & Hget4 & Hother4); [rewrite length_fmap; congruence|].
  split; [done|]. split; [congruence|].
  split; [by rewrite Hother4, Hother3, Hother2|].
  split; [by rewrite Hother4, Hother3|].
  split; [by rewrite Hother4|].
  split; [done|].
  intros name Hname. rewrite !not_elem_of_cons in Hname.
  destruct Hname as (? & ? & ? & ? & _).
  by rewrite Hother4, Hother3, Hother2, Hother1.
Qed.

(** ** Well-formedness along the pipeline *)

Lemma well_formed_read csv :
  well_formed csv → well_formed (read_with_embedded_header csv).
Proof.
  unfold well_formed, read_with_embedded_header. intros H.
  destruct (rows csv) as [|first rest] eqn:E; [by rewrite E|].
  simpl. apply Forall_cons in H as [Hfirst Hrest].
  rewrite length_zip_with, Hfirst, Nat.min_id. done.
Qed.

Lemma well_formed_text_frame csv : well_formed csv → well_formed (text_frame csv).
Proof.
  unfold well_formed, text_frame. simpl. intros H.
  apply Forall_fmap. eapply Forall_impl; [exact H|].
  simpl. intros r Hr. by rewrite length_fmap.
Qed.

Lemma well_formed_rename {A} k v (df : Frame A) :
  well_formed df → well_formed (rename k v df).
Proof. unfold well_formed, rename. simpl. by rewrite length_fmap. Qed.

Lemma well_formed_rename_step df kv :
  well_formed df → well_formed (rename_step df kv).
Proof.
  intros H. unfold rename_step. case_bool_decide.
  - by apply well_formed_rename.
  - by apply setitem_scalar_facts.
Qed.

Lemma well_formed_rename_columns df :
  well_formed df → well_formed (rename_columns df).
Proof.
  unfold rename_columns. generalize rename_map. intros l. revert df.
  induction l as [|kv l IH]; intros df H; [done|].
  simpl. by apply IH, well_formed_rename_step.
Qed.

Lemma well_formed_reconstruct df :
  well_formed df → well_formed (reconstruct_supervisors df).
Proof.
  unfold reconstruct_supervisors. intros H.
  destruct (get_loc _ _); [|done].
  unfold well_formed. simpl. by apply reconstruct_rows_row_length.
Qed.

Lemma len_reconstruct df : len (reconstruct_supervisors df) = len df.
Proof.
  unfold reconstruct_supervisors, len.
  destruct (get_loc _ _); [|done]. simpl. apply reconstruct_rows_length.
Qed.

Lemma columns_reconstruct df : columns (reconstruct_supervisors df) = columns df.
Proof. unfold reconstruct_supervisors. by destruct (get_loc _ _). Qed.

(** A successful assignment of the parsed fields is three assignments of
    full-length columns. *)
Lemma parse_resource_fields_Ok df df' :
  parse_resource_fields df = Ok df' →
  ∃ c1 c2 c3,
    length c1 = len df ∧ length c2 = len df ∧ length c3 = len df
    ∧ df' = setitem "resource_title" c3
              (setitem "resource_name" c2 (setitem "employee_id" c1 df)).
Proof.
  unfold parse_resource_fields.
  pose proof (length_getitem "resource_raw" df) as Hlen.
  destruct (getitem "resource_raw" df) as [|c cs]; [done|].
  set (recs := _ <$> (parse_employee <$> (c :: cs))).
  assert (Hrecs : length recs = len df).
  { subst recs. by rewrite !length_fmap. }
  destruct recs as [|r recs]; [done|].
  unfold records_columns, setitem_array. simpl.
  intros [= <-].
  eexists _, _, _. split; [|split; [|split; [|reflexivity]]];
    simpl; rewrite length_fmap; simpl in Hrecs; lia.
Qed.

Lemma well_formed_parse df df' :
  well_formed df → parse_resource_fields df = Ok df' →
  well_formed df' ∧ len df' = len df.
Proof.
  intros Hwf H. apply parse_resource_fields_Ok in H
    as (c1 & c2 & c3 & H1 & H2 & H3 & ->).
  destruct (setitem_spec "employee_id" c1 df Hwf H1) as (Hwf1 & Hl1 & _).
  destruct (setitem_spec "resource_name" c2 _ Hwf1) as (Hwf2 & Hl2 & _);
    [congruence|].
  destruct (setitem_spec "resource_title" c3 _ Hwf2) as (Hwf3 & Hl3 & _);
    [congruence|].
  split; [done|congruence].
Qed.

Lemma length_percent_column stf pct df :
  length (percent_column stf pct df) = len df.
Proof.
  unfold percent_column. destruct (is_fractional _);
    rewrite ?length_fmap, length_to_numeric; apply length_getitem.
Qed.

Lemma length_sum_percent_columns stf pct0 rest df :
  length (sum_percent_columns stf pct0 rest df) = len df.
Proof.
  unfold sum_percent_columns.
  generalize (length_percent_column stf pct0 df).
  generalize (percent_column stf pct0 df). intros acc Hacc.
  revert acc Hacc. induction rest as [|p rest IH]; intros acc Hacc; [done|].
  simpl. apply IH. rewrite length_zip_with, Hacc, length_percent_column. lia.
Qed.

Lemma well_formed_compute stf df :
  well_formed df →
  well_formed (compute_total_allocation stf df)
  ∧ len (compute_total_allocation stf df) = len df.
Proof.
  intros Hwf. unfold compute_total_allocation.
  destruct (find_workstream_pairs (columns df)) as [|[w pct0] rest].
  - destruct (setitem_scalar_facts "computed_total_pct" (VNum F64.zero) df Hwf)
      as [Hwf1 Hlen1].
    set (df1 := setitem_scalar "computed_total_pct" (VNum F64.zero) df) in *.
    assert (Hv : length (if bool_decide ("total_workstream_allocation_pct" ∈ columns df1)
                         then getitem "total_workstream_allocation_pct" df1
                         else replicate (len df1) VNone) = len df1).
    { case_bool_decide; [apply length_getitem|apply length_replicate]. }
    destruct (setitem_spec "total_allocation_pct" _ df1 Hwf1 Hv) as (? & ? & _).
    split; [done|congruence].
  - set (V := VNum <$> (F64.fillna F64.zero <$> sum_percent_columns stf pct0 rest df)).
    assert (HV : length V = len df).
    { subst V. by rewrite !length_fmap, length_sum_percent_columns. }
    destruct (setitem_spec "computed_total_pct" V df Hwf HV) as (Hwf1 & Hlen1 & _).
    set (df1 := setitem "computed_total_pct" V df) in *.
    case_bool_decide.
    + assert (Hv : length (zip_with (λ x c, if F64.isna x then c else VNum x)
                     (to_numeric stf (getitem "Total Workstream Allocation %" df1))
                     (getitem "computed_total_pct" df1)) = len df1).
      { rewrite length_zip_with, length_to_numeric, !length_getitem. lia. }
      destruct (setitem_spec "total_allocation_pct" _ df1 Hwf1 Hv) as (? & ? & _).
      split; [done|congruence].
    + destruct (setitem_spec "total_allocation_pct" _ df1 Hwf1
                  (length_getitem "computed_total_pct" df1)) as (? & ? & _).
      split; [done|congruence].
Qed.

Lemma detect_spec fts df :
  well_formed df →
  well_formed (detect_workstream1_completion fts df)
  ∧ len (detect_workstream1_completion fts df) = len df
  ∧ ∀ name, name ≠ "workstream1_completed" →
      getitem name (detect_workstream1_completion fts df) = getitem name df.
Proof.
  intros Hwf. unfold detect_workstream1_completion, setitem_scalar.
  destruct (setitem_spec "workstream1_completed"
              (replicate (len df) (VBool false)) df Hwf)
    as (Hwf1 & Hlen1 & _ & Hother1); [by rewrite length_replicate|].
  set (df1 := setitem "workstream1_completed" _ df) in *.
  destruct (get_loc "Workstream Status Active" (columns df1)) as [i|]; [|done].
  destruct (setitem_spec "workstream1_completed"
              ((λ c, VBool (status_is_affirmative fts c)) <$> iloc_col VNone i df1)
              df1 Hwf1)
    as (Hwf2 & Hlen2 & _ & Hother2).
  { unfold iloc_col. by rewrite !length_fmap. }
  split; [done|]. split; [congruence|].
  intros name Hname. by rewrite Hother2, Hother1.
Qed.

(** ** The official total column in the pipeline *)

Lemma rename_step_drops_key df k v : k ≠ v → k ∉ columns (rename_step df (k, v)).
Proof.
  intros Hne. unfold rename_step. simpl. case_bool_decide as Hin.
  - unfold rename. simpl. intros H. apply list_elem_of_fmap in H as (c & Hc & _).
    by case_bool_decide.
  - unfold setitem_scalar. rewrite columns_setitem.
    case_bool_decide; [done|]. rewrite elem_of_app, list_elem_of_singleton. tauto.
Qed.

(** After the renaming loop no column is labelled with the official
    business name any more. *)
Lemma official_label_renamed df :
  "Total Workstream Allocation %" ∉ columns (rename_columns df).
Proof.
  unfold rename_columns, rename_map. cbn [foldl].
  apply rename_step_drops_key. discriminate.
Qed.

Lemma not_in_columns_setitem {A} k name (vals : list A) (df : Frame A) :
  k ∉ columns df → k ≠ name → k ∉ columns (setitem name vals df).
Proof.
  intros Hk Hne. rewrite columns_setitem. case_bool_decide; [done|].
  rewrite elem_of_app, list_elem_of_singleton. tauto.
Qed.

Lemma Ok_inj {A} (a b : A) : Ok a = Ok b → a = b.
Proof. by intros [= ->]. Qed.

Lemma rename_step_adds df k v : v ∈ columns (rename_step df (k, v)).
Proof.
  unfold rename_step. simpl. case_bool_decide as Hin.
  - unfold rename. simpl. apply list_elem_of_fmap. exists k.
    by rewrite bool_decide_eq_true_2.
  - unfold setitem_scalar. rewrite columns_setitem.
    case_bool_decide; [done|]. rewrite elem_of_app, list_elem_of_singleton. tauto.
Qed.

Lemma in_columns_setitem {A} name m (vals : list A) (df : Frame A) :
  name ∈ columns df → name ∈ columns (setitem m vals df).
Proof.
  intros H. rewrite columns_setitem. case_bool_decide; [done|].
  rewrite elem_of_app. tauto.
Qed.

Lemma rename_step_keeps df name k v :
  name ∈ columns df → name ≠ k → name ∈ columns (rename_step df (k, v)).
Proof.
  intros Hin Hne. unfold rename_step. simpl. case_bool_decide.
  - unfold rename. simpl. apply list_elem_of_fmap. exists name.
    by rewrite bool_decide_eq_false_2.
  - by apply in_columns_setitem.
Qed.

(** After the renaming loop there is a supervisor column. *)
Lemma supervisor_column_present df : "supervisor" ∈ columns (rename_columns df).
Proof.
  unfold rename_columns, rename_map. cbn [foldl].
  do 6 (apply rename_step_keeps; [|discriminate]).
  apply rename_step_adds.
Qed.

(** The frame that a successful run hands to [compute_total_allocation]. *)
Lemma load_latest_csv_Ok stf fts csv out :
  well_formed csv → load_latest_csv stf fts csv = Ok out →
  ∃ df, well_formed df
        ∧ ("Total Workstream Allocation %" ∉ columns df)
        ∧ Forall (λ c, truthy c = true) (getitem "supervisor" df)
        ∧ (out = derive_flags stf
                   (detect_workstream1_completion fts (compute_total_allocation stf df))).
Proof.
  intros Hwf. unfold load_latest_csv.
  set (df0 := rename_columns (text_frame (read_with_embedded_header csv))).
  assert (Hwf0 : well_formed df0).
  { by apply well_formed_rename_columns, well_formed_text_frame, well_formed_read. }
  destruct (parse_resource_fields df0) as [df1|e] eqn:E; [|discriminate].
  intros H. apply Ok_inj in H.
  destruct (well_formed_parse _ _ Hwf0 E) as [Hwf1 Hlen1].
  exists (reconstruct_supervisors df1).
  split; [by apply well_formed_reconstruct|].
  apply parse_resource_fields_Ok in E as (c1 & c2 & c3 & _ & _ & _ & E).
  split; [|split; [|by symmetry]].
  - rewrite columns_reconstruct, E.
    do 3 (apply not_in_columns_setitem; [|discriminate]).
    apply official_label_renamed.
  - apply reconstruct_supervisors_truthy; [done|]. rewrite E.
    do 3 apply in_columns_setitem. apply supervisor_column_present.
Qed.

Lemma compute_other stf df name :
  well_formed df →
  name ≠ "computed_total_pct" → name ≠ "total_allocation_pct" →
  getitem name (compute_total_allocation stf df) = getitem name df.
Proof.
  intros Hwf Hn1 Hn2. unfold compute_total_allocation.
  destruct (find_workstream_pairs (columns df)) as [|[w pct0] rest].
  - destruct (setitem_scalar_facts "computed_total_pct" (VNum F64.zero) df Hwf)
      as [Hwf1 Hlen1].
    rewrite getitem_setitem_ne; [|done| |done].
    + unfold setitem_scalar. apply getitem_setitem_ne; [done| |done].
      by rewrite length_replicate.
    + case_bool_decide; [apply length_getitem|apply length_replicate].
  - set (V := VNum <$> (F64.fillna F64.zero <$> sum_percent_columns stf pct0 rest df)).
    assert (HV : length V = len df).
    { subst V. by rewrite !length_fmap, length_sum_percent_columns. }
    destruct (setitem_spec "computed_total_pct" V df Hwf HV)
      as (Hwf1 & Hlen1 & _ & Hother1).
    case_bool_decide.
    + rewrite getitem_setitem_ne; [by apply Hother1|done| |done].
      rewrite length_zip_with, length_to_numeric, !length_getitem. lia.
    + rewrite getitem_setitem_ne; [by apply Hother1|done| |done].
      apply length_getitem.
Qed.

(** No supervisor cell of a normalized table is empty. *)
Lemma supervisor_never_empty stf fts csv out :
  well_formed csv → load_latest_csv stf fts csv = Ok out →
  Forall (λ c, truthy c = true) (getitem "supervisor" out).
Proof.
  intros Hwf Hload.
  destruct (load_latest_csv_Ok _ _ _ _ Hwf Hload) as (df & Hwfd & _ & Hsup & ->).
  destruct (well_formed_compute stf df Hwfd) as [Hwf1 _].
  destruct (detect_spec fts _ Hwf1) as (Hwf2 & _ & Hother2).
  destruct (derive_flags_spec stf _ Hwf2) as (_ & _ & _ & _ & _ & _ & Hother).
  assert (Hlabel : "supervisor"
            ∉ ["total_allocation_pct"; "overallocated"; "underallocated"; "unassigned"]).
  { rewrite !not_elem_of_cons. repeat split; try discriminate. apply not_elem_of_nil. }
  rewrite (Hother _ Hlabel), Hother2 by discriminate.
  rewrite compute_other by (done || discriminate). done.
Qed.

Lemma to_numeric_VNum stf (l : list spec_float) : to_numeric stf (VNum <$> l) = l.
Proof.
  unfold to_numeric. rewrite <- list_fmap_compose.
  by rewrite <- (list_fmap_id l) at 2.
Qed.

Lemma fillna_fillna (l : list spec_float) :
  F64.fillna F64.zero <$> (F64.fillna F64.zero <$> l) = F64.fillna F64.zero <$> l.
Proof.
  rewrite <- list_fmap_compose. apply list_fmap_ext. intros _ x _. simpl.
  by destruct x.
Qed.

(** With workstream pairs and no column under the official business
    label, both totals are the computed sum. *)
Lemma compute_with_pairs stf df :
  well_formed df →
  "Total Workstream Allocation %" ∉ columns df →
  find_workstream_pairs (columns df) ≠ [] →
  ∃ computed : list spec_float,
    getitem "computed_total_pct" (compute_total_allocation stf df)
      = VNum <$> (F64.fillna F64.zero <$> computed)
    ∧ getitem "total_allocation_pct" (compute_total_allocation stf df)
      = VNum <$> (F64.fillna F64.zero <$> computed).
Proof.
  intros Hwf Hcanon Hpairs. unfold compute_total_allocation.
  destruct (find_workstream_pairs (columns df)) as [|[w pct0] rest]; [done|].
  exists (sum_percent_columns stf pct0 rest df).
  set (computed := VNum <$> (F64.fillna F64.zero <$> sum_percent_columns stf pct0 rest df)).
  assert (HV : length computed = len df).
  { subst computed. by rewrite !length_fmap, length_sum_percent_columns. }
  destruct (setitem_spec "computed_total_pct" computed df Hwf HV)
    as (Hwf1 & Hlen1 & Hget1 & _).
  rewrite bool_decide_eq_false_2
    by (apply not_in_columns_setitem; [done|discriminate]).
  rewrite Hget1.
  destruct (setitem_spec "total_allocation_pct" computed _ Hwf1)
    as (_ & _ & Hget2 & Hother2); [congruence|].
  split; [|done]. rewrite Hother2 by discriminate. done.
Qed.

(** Assigning a column whose label is no workstream or percent name
    leaves the discovered pairs as they are. *)
Lemma pairs_setitem {A} name (vals : list A) (df : Frame A) :
  WS_NAME_RE name = None → PCT_NAME_RE name = None →
  find_workstream_pairs (columns (setitem name vals df))
  = find_workstream_pairs (columns df).
Proof.
  intros Hws Hpct. rewrite columns_setitem. case_bool_decide; [done|].
  unfold find_workstream_pairs, scan_columns. rewrite foldl_app. simpl.
  unfold scan_column at 1. by rewrite Hws, Hpct.
Qed.

Lemma pairs_compute stf df :
  find_workstream_pairs (columns (compute_total_allocation stf df))
  = find_workstream_pairs (columns df).
Proof.
  unfold compute_total_allocation.
  destruct (find_workstream_pairs (columns df)) as [|[w pct0] rest] eqn:E.
  - unfold setitem_scalar. by rewrite !pairs_setitem.
  - case_bool_decide; by rewrite !pairs_setitem.
Qed.

Lemma pairs_detect fts df :
  find_workstream_pairs (columns (detect_workstream1_completion fts df))
  = find_workstream_pairs (columns df).
Proof.
  unfold detect_workstream1_completion, setitem_scalar.
  destruct (get_loc _ _); by rewrite !pairs_setitem.
Qed.

Lemma pairs_derive_flags stf df :
  find_workstream_pairs (columns (derive_flags stf df))
  = find_workstream_pairs (columns df).
Proof. unfold derive_flags. by rewrite !pairs_setitem. Qed.

(** In every successful run on a frame with workstream pairs, the final
    total is the computed total, whatever the official column holds. *)
Lemma official_total_never_read stf fts csv out :
  well_formed csv → load_latest_csv stf fts csv = Ok out →
  find_workstream_pairs (columns out) ≠ [] →
  getitem "total_allocation_pct" out = getitem "computed_total_pct" out.
Proof.
  intros Hwf Hload.
  destruct (load_latest_csv_Ok _ _ _ _ Hwf Hload) as (df & Hwfd & Hcanon & _ & Hout).
  rewrite Hout, pairs_derive_flags, pairs_detect, pairs_compute.
  intros Hpairs.
  destruct (compute_with_pairs stf df Hwfd Hcanon Hpairs) as (computed & Hc & Ht).
  destruct (well_formed_compute stf df Hwfd) as [Hwf1 _].
  destruct (detect_spec fts _ Hwf1) as (Hwf2 & _ & Hother2).
  destruct (derive_flags_spec stf _ Hwf2) as (_ & _ & Htot & _ & _ & _ & Hother).
  assert (Hlabel : "computed_total_pct"
            ∉ ["total_allocation_pct"; "overallocated"; "underallocated"; "unassigned"]).
  { rewrite !not_elem_of_cons. repeat split; try discriminate. apply not_elem_of_nil. }
  rewrite Htot, (Hother _ Hlabel), !Hother2 by discriminate.
  by rewrite Ht, Hc, to_numeric_VNum, fillna_fillna.
Qed.

(** C3 fails on the code.  The frame handed to [compute_total_allocation]
    has no column under the official business label any more (the caller
    renamed it), so in every successful run on a frame with workstream
    pairs the final total is the computed total, whatever the official
    column holds.  [official_total_csv] carries the official total 75 for
    its resource, whose workstream percentage is 50: the pipeline keeps
    the official cell under its renamed label and returns
    [total_allocation_pct = 50.0]. *)
Theorem official_total_ignored_with_pairs :
  (∀ (str_to_float : string → spec_float) (float_to_str : spec_float → string)
     (csv : Frame string) (out : Frame cell),
     well_formed csv →
     load_latest_csv str_to_float float_to_str csv = Ok out →
     find_workstream_pairs (columns out) ≠ [] →
     getitem "total_allocation_pct" out = getitem "computed_total_pct" out)
  ∧ (∀ float_to_str : spec_float → string,
       ∃ df : Frame cell,
         load_latest_csv Decimal.to_float float_to_str official_total_csv = Ok df
         ∧ getitem "total_workstream_allocation_pct" df = [VStr "75"]
         ∧ getitem "computed_total_pct" df = [VNum (F64.of_Z 50)]
         ∧ getitem "total_allocation_pct" df = [VNum (F64.of_Z 50)]
         ∧ Decimal.to_float "75" = F64.of_Z 75
         ∧ F64.of_Z 75 ≠ F64.of_Z 50).
Proof.
  split; [exact official_total_never_read|].
  intros float_to_str. eexists. split; [by vm_compute|].
  repeat split; by vm_compute.
Qed.

Lemma official_total_ignored_with_pairs_witness :
  getitem "total_allocation_pct"
    (frame_of (load_latest_csv Decimal.to_float no_float_text official_total_csv))
  = getitem "computed_total_pct"
      (frame_of (load_latest_csv Decimal.to_float no_float_text official_total_csv)).
Proof.
  apply (proj1 official_total_ignored_with_pairs Decimal.to_float no_float_text
           official_total_csv).
  - repeat constructor.
  - by vm_compute.
  - by vm_compute.
Defined.

(** ** Allocation flags of the normalized table *)

Lemma fillna_zero_not_nan (l : list spec_float) :
  Forall (λ t, F64.isna t = false) (F64.fillna F64.zero <$> l).
Proof. apply Forall_fmap, Forall_forall. intros x _. by destruct x. Qed.

(** C1, as stated, fails: with the thresholds of [load_latest_csv] a
    total of zero is both underallocated and unassigned; the first
    resource of [idle_csv] is such a row of the normalized table. *)
Lemma flags_overlap_at_zero :
  at_most_one (overallocated F64.zero) (underallocated F64.zero)
      (unassigned F64.zero) = false
  ∧ getitem "total_allocation_pct"
      (frame_of (load_latest_csv Decimal.to_float no_float_text idle_csv))
    = [VNum F64.zero; VNum (F64.of_Z 120)]
  ∧ getitem "overallocated"
      (frame_of (load_latest_csv Decimal.to_float no_float_text idle_csv))
    = [VBool false; VBool true]
  ∧ getitem "underallocated"
      (frame_of (load_latest_csv Decimal.to_float no_float_text idle_csv))
    = [VBool true; VBool false]
  ∧ getitem "unassigned"
      (frame_of (load_latest_csv Decimal.to_float no_float_text idle_csv))
    = [VBool true; VBool false].
Proof. repeat split; by vm_compute. Qed.

(** C1 (amended): in every normalized table the three flag columns are
    the three threshold tests of the final numeric total of the same row
    ([> 100], [< 100], [== 0]), which is never missing.  For every total,
    [overallocated] is never true together with [underallocated] or with
    [unassigned]; an unassigned row (total 0) is also underallocated;
    with the notebook's second flag (total < 100 and total > 0) at most
    one of the three flags is true. *)
Theorem flags_exclusive_except_zero :
  (∀ total : spec_float,
     overallocated total && underallocated total = false
     ∧ overallocated total && unassigned total = false
     ∧ (unassigned total = true → underallocated total = true)
     ∧ at_most_one (overallocated total) (underallocated_databricks total)
         (unassigned total) = true)
  ∧ (∀ (str_to_float : string → spec_float) (float_to_str : spec_float → string)
       (csv : Frame string) (out : Frame cell),
       well_formed csv →
       load_latest_csv str_to_float float_to_str csv = Ok out →
       ∃ totals : list spec_float,
         getitem "total_allocation_pct" out = VNum <$> totals
         ∧ Forall (λ t, F64.isna t = false) totals
         ∧ getitem "overallocated" out = (λ t, VBool (overallocated t)) <$> totals
         ∧ getitem "underallocated" out = (λ t, VBool (underallocated t)) <$> totals
         ∧ getitem "unassigned" out = (λ t, VBool (unassigned t)) <$> totals).
Proof.
  split.
  - intros total.
    assert (H1 : overallocated total && underallocated total = false).
    { unfold overallocated, underallocated, F64.gt, F64.lt.
      destruct (SFltb F64.hundred total) eqn:E; [|done].
      by rewrite (SFltb_asym _ _ E). }
    assert (H2 : overallocated total && unassigned total = false).
    { unfold unassigned, F64.eq.
      destruct (SFeqb total F64.zero) eqn:E; [|by rewrite andb_false_r].
      destruct (SFeqb_zero_inv _ E) as [s ->]. done. }
    assert (H3 : unassigned total = true → underallocated total = true).
    { intros E. destruct (SFeqb_zero_inv _ E) as [s ->]. done. }
    assert (H4 : underallocated_databricks total && unassigned total = false).
    { unfold underallocated_databricks, unassigned, F64.eq.
      destruct (SFeqb total F64.zero) eqn:E; [|by rewrite andb_false_r].
      destruct (SFeqb_zero_inv _ E) as [s ->]. done. }
    repeat split; try done.
    unfold at_most_one. rewrite H2, H4.
    unfold underallocated_databricks.
    change (F64.lt total F64.hundred) with (underallocated total).
    by rewrite andb_assoc, H1.
  - intros stf fts csv out Hwf Hload.
    destruct (load_latest_csv_Ok _ _ _ _ Hwf Hload) as (df & Hwfd & _ & _ & ->).
    destruct (well_formed_compute stf df Hwfd) as [Hwf1 _].
    destruct (detect_spec fts _ Hwf1) as (Hwf2 & _ & _).
    destruct (derive_flags_spec stf _ Hwf2) as (_ & _ & Ht & Ho & Hu & Hn & _).
    eexists. split; [exact Ht|]. split; [apply fillna_zero_not_nan|].
    split; [exact Ho|]. split; [exact Hu|exact Hn].
Qed.

Lemma flags_exclusive_except_zero_witness :
  (unassigned (S754_zero true) = true ∧ underallocated (S754_zero true) = true)
  ∧ ∃ totals : list spec_float,
      getitem "total_allocation_pct"
        (frame_of (load_latest_csv Decimal.to_float no_float_text idle_csv))
      = VNum <$> totals
      ∧ Forall (λ t, F64.isna t = false) totals
      ∧ getitem "overallocated"
          (frame_of (load_latest_csv Decimal.to_float no_float_text idle_csv))
        = (λ t, VBool (overallocated t)) <$> totals
      ∧ getitem "underallocated"
          (frame_of (load_latest_csv Decimal.to_float no_float_text idle_csv))
        = (λ t, VBool (underallocated t)) <$> totals
      ∧ getitem "unassigned"
          (frame_of (load_latest_csv Decimal.to_float no_float_text idle_csv))
        = (λ t, VBool (unassigned t)) <$> totals.
Proof.
  split.
  - split; [reflexivity|].
    exact (proj1 (proj2 (proj2
             (proj1 flags_exclusive_except_zero (S754_zero true)))) eq_refl).
  - apply (proj2 flags_exclusive_except_zero Decimal.to_float no_float_text idle_csv).
    + repeat constructor.
    + by vm_compute.
Defined.

(** ** Hierarchy reconstruction in the pipeline *)

(** C4: the rewrite of the supervisor column maps
    [alice@co, "", "", bob@co, ""] to
    [Self, alice@co, alice@co, Self, bob@co]; on every well-formed frame
    with a supervisor column it keeps the number of rows and leaves no
    supervisor cell empty (each is a non-empty text cell, in general a
    true-valued cell), and so does every successful run of the
    pipeline on its normalized table. *)
Theorem hierarchy_reconstruction :
  getitem "supervisor" (reconstruct_supervisors supervisor_example)
    = [VStr "Self"; VStr "alice@co"; VStr "alice@co"; VStr "Self"; VStr "bob@co"]
  ∧ getitem "resource_raw" (reconstruct_supervisors supervisor_example)
    = [VStr "R1"; VStr "R2"; VStr "R3"; VStr "R4"; VStr "R5"]
  ∧ (∀ df : Frame cell,
       well_formed df → "supervisor" ∈ columns df →
       len (reconstruct_supervisors df) = len df
       ∧ well_formed (reconstruct_supervisors df)
       ∧ Forall (λ c, truthy c = true ∧ c ≠ VStr "" ∧ c ≠ VNone)
           (getitem "supervisor" (reconstruct_supervisors df)))
  ∧ (∀ (str_to_float : string → spec_float) (float_to_str : spec_float → string)
       (csv : Frame string) (out : Frame cell),
       well_formed csv →
       load_latest_csv str_to_float float_to_str csv = Ok out →
       Forall (λ c, truthy c = true ∧ c ≠ VStr "" ∧ c ≠ VNone)
         (getitem "supervisor" out)).
Proof.
  assert (Hstrong : ∀ l, Forall (λ c, truthy c = true) l →
            Forall (λ c, truthy c = true ∧ c ≠ VStr "" ∧ c ≠ VNone) l).
  { intros l Hl. eapply Forall_impl; [exact Hl|].
    simpl. intros c Hc. split; [done|]. by apply truthy_not_empty. }
  split; [reflexivity|]. split; [reflexivity|]. split.
  - intros df Hwf Hin.
    split; [apply len_reconstruct|].
    split; [by apply well_formed_reconstruct|].
    by apply Hstrong, reconstruct_supervisors_truthy.
  - intros stf fts csv out Hwf Hload.
    by eapply Hstrong, supervisor_never_empty.
Qed.

Lemma hierarchy_reconstruction_witness :
  Forall (λ c, truthy c = true ∧ c ≠ VStr "" ∧ c ≠ VNone)
    (getitem "supervisor" (reconstruct_supervisors late_supervisor))
  ∧ Forall (λ c, truthy c = true ∧ c ≠ VStr "" ∧ c ≠ VNone)
      (getitem "supervisor"
         (frame_of (load_latest_csv Decimal.to_float no_float_text idle_csv))).
Proof.
  split.
  - apply (proj1 (proj2 (proj2 hierarchy_reconstruction)) late_supervisor).
    + repeat constructor.
    + apply list_elem_of_In. simpl. tauto.
  - apply (proj2 (proj2 (proj2 hierarchy_reconstruction))
             Decimal.to_float no_float_text idle_csv).
    + repeat constructor.
    + by vm_compute.
Defined.

Example idle_csv_supervisors :
  getitem "supervisor"
    (frame_of (load_latest_csv Decimal.to_float no_float_text idle_csv))
  = [VStr "Unassigned"; VStr "Unassigned"].
Proof. by vm_compute. Qed.
